(** * Reformulation of Special Angles: the arithmetic of the two scripts

    [special_angles.py] and [special_angles_numpy.py] are module-level
    scripts.  Each binds the global [r], runs five assignments
    ([diag_length], [sphere_radius], [sphere_volume], [x], [sin_pi_3]),
    prints four of the values, draws a figure, and repeats the five
    assignments for [r = 2] and [r = 3].

    The embedding below keeps that shape: a Python module is a dictionary
    of globals plus the text written to standard output, a statement is a
    computation in a state-and-exception monad, and the arithmetic of
    [float] and of the [math] module is an interface.  Statements about
    the structure of the scripts are proved for every instance of that
    interface.  Statements about numbers are proved in one of three
    instances, and say in which: IEEE 754 binary64, which is what the
    interpreter computes with; exact real arithmetic, where rounding,
    overflow and underflow do not occur; and real arithmetic with a
    bounded relative error in every operation, which is binary64 away
    from overflow and underflow. *)

From Stdlib Require Import Floats Reals Lra Lia ZArith Ascii String.
From stdpp Require Import base strings gmap.

Open Scope string_scope.

(** ** The fragment of the Python runtime the scripts use *)

Module Py.

(** Built-in exception classes that an arithmetic statement of the
    scripts can raise, and user classes by name. *)
Inductive exn : Type :=
| ZeroDivisionError
| ValueError
| OverflowError
| NameError
| TypeError
| UserError (class_name : string).

(** The newline character of an f-string that starts with a blank line. *)
Definition nl : string := String "010"%char "".

Definition result (A : Type) : Type := (exn + A)%type.
Definition Ok {A : Type} (a : A) : result A := inr a.
Definition Err {A : Type} (e : exn) : result A := inl e.

(** What [float] and [math] provide.  Addition and multiplication never
    raise; true division raises [ZeroDivisionError]; [**] may raise
    [OverflowError]; [math.sqrt] and [math.sin] raise [ValueError]
    outside their domain. *)
Class Arith (num : Type) : Type := {
  of_int : Z -> num;
  f_add : num -> num -> num;
  f_mul : num -> num -> num;
  f_truediv : num -> num -> result num;
  f_pow : num -> nat -> result num;
  m_sqrt : num -> result num;
  m_sin : num -> result num;
  m_pi : num
}.

Section Interp.
Context {num : Type}.

(** A global name is bound to a number or to some other object
    (a figure, an axes handle, an [ndarray]). *)
Inductive value : Type :=
| VNum (v : num)
| VObj.

(** One [print] call of the scripts: a label followed by a value,
    rendered either with [:.4f] or with the default conversion. *)
Inductive line : Type :=
| Fixed4 (label : string) (v : num)
| Plain (label : string) (v : num) (tail : string).

Record interp : Type := mkInterp {
  globals : gmap string value;
  stdout : list line
}.

(** Statements and expressions: the state survives an exception, as
    the text already printed does in the interpreter. *)
Definition M (A : Type) : Type := interp -> result A * interp.

Definition ret {A : Type} (a : A) : M A := fun s => (Ok a, s).

Definition bind {A B : Type} (m : M A) (k : A -> M B) : M B :=
  fun s =>
    match m s with
    | (inr a, s') => k a s'
    | (inl e, s') => (Err e, s')
    end.

Definition lift {A : Type} (r : result A) : M A := fun s => (r, s).

(** Reading a global name. *)
Definition var (name : string) : M num :=
  fun s =>
    match globals s !! name with
    | Some (VNum v) => (Ok v, s)
    | Some VObj => (Err TypeError, s)
    | None => (Err NameError, s)
    end.

(** [name = v] at module level. *)
Definition assign (name : string) (v : value) : M unit :=
  fun s => (Ok tt, mkInterp (<[name := v]> (globals s)) (stdout s)).

Definition print (l : line) : M unit :=
  fun s => (Ok tt, mkInterp (globals s) (stdout s ++ [l])).

(** A fresh interpreter. *)
Definition fresh : interp := mkInterp ∅ [].

(** The numeric value of a global after a run. *)
Definition read (s : interp) (name : string) : option num :=
  match globals s !! name with
  | Some (VNum v) => Some v
  | _ => None
  end.

(** Exit status of the interpreter: an uncaught exception ends the
    process with status 1. *)
Definition exit_status {A : Type} (r : result A) : Z :=
  match r with
  | inr _ => 0%Z
  | inl _ => 1%Z
  end.
End Interp.

Arguments value : clear implicits.
Arguments line : clear implicits.
Arguments interp : clear implicits.
Arguments M : clear implicits.

#[export] Instance M_ret {num} : MRet (M num) := @ret num.
#[export] Instance M_bind {num} : MBind (M num) :=
  fun A B k m => @bind num A B m k.

(** Exceptions alone, for code without globals. *)
Definition bind_result {A B : Type} (r : result A) (k : A -> result B)
  : result B :=
  match r with
  | inr a => k a
  | inl e => Err e
  end.

#[export] Instance result_bind : MBind result :=
  fun A B k r => @bind_result A B r k.

End Py.

Import Py.

(** ** The four quantities an evaluation produces *)

Record EvaluationResult {num : Type} : Type := mkResult {
  diagonalLength : num;
  sphereRadius : num;
  sphereVolume : num;
  identityValue : num
}.
Arguments EvaluationResult : clear implicits.

(** Reading the four quantities off the globals of a finished run. *)
Definition observe {num : Type} (run : result unit * interp num)
  : result (EvaluationResult num) :=
  match run with
  | (inl e, _) => Err e
  | (inr _, s) =>
      match read s "diag_length", read s "sphere_radius",
            read s "sphere_volume", read s "sin_pi_3" with
      | Some d, Some rad, Some vol, Some idv => Ok (mkResult num d rad vol idv)
      | _, _, _, _ => Err NameError
      end
  end.

(** ** special_angles.py *)

Module SpecialAngles.
Section Script.
Context {num : Type} `{!Arith num}.

(** Line 27: [diag_length = math.sqrt(r**2 + (math.sqrt(2)*r)**2)]. *)
Definition diag_length : M num unit :=
  r ← var "r";
  a ← lift (f_pow r 2);
  s2 ← lift (m_sqrt (of_int 2));
  r' ← var "r";
  b ← lift (f_pow (f_mul s2 r') 2);
  d ← lift (m_sqrt (f_add a b));
  assign "diag_length" (VNum d).

(** Line 31: [sphere_radius = diag_length / 2]. *)
Definition sphere_radius : M num unit :=
  d ← var "diag_length";
  q ← lift (f_truediv d (of_int 2));
  assign "sphere_radius" (VNum q).

(** Line 35: [sphere_volume = (4/3) * math.pi * sphere_radius**3]. *)
Definition sphere_volume : M num unit :=
  c ← lift (f_truediv (of_int 4) (of_int 3));
  rad ← var "sphere_radius";
  p ← lift (f_pow rad 3);
  assign "sphere_volume" (VNum (f_mul (f_mul c m_pi) p)).

(** Line 39: [x = r * math.sin(math.pi / 3)]. *)
Definition x : M num unit :=
  r ← var "r";
  t ← lift (f_truediv m_pi (of_int 3));
  sn ← lift (m_sin t);
  assign "x" (VNum (f_mul r sn)).

(** Line 40: [sin_pi_3 = sphere_volume / (math.pi * x**3)]. *)
Definition sin_pi_3 : M num unit :=
  vol ← var "sphere_volume";
  xv ← var "x";
  p ← lift (f_pow xv 3);
  q ← lift (f_truediv vol (f_mul m_pi p));
  assign "sin_pi_3" (VNum q).

(** The four [print] calls (lines 28, 32, 36, 41 and their copies). *)
Definition print_diag_length : M num unit :=
  d ← var "diag_length"; print (Fixed4 "Diagonal length of the cube: " d).
Definition print_sphere_radius : M num unit :=
  v ← var "sphere_radius"; print (Fixed4 "Radius of the sphere: " v).
Definition print_sphere_volume : M num unit :=
  v ← var "sphere_volume"; print (Fixed4 "Volume of the sphere: " v).
Definition print_sin_pi_3 : M num unit :=
  v ← var "sin_pi_3"; print (Fixed4 "sin(π/3) = " v).

(** Lines 27-41: each assignment is followed by its [print], except
    [x]. *)
Definition main_block : M num unit :=
  diag_length;; print_diag_length;;
  sphere_radius;; print_sphere_radius;;
  sphere_volume;; print_sphere_volume;;
  x;; sin_pi_3;; print_sin_pi_3.

(** Lines 44-80: the Plotly figure.  It reads [r] and [diag_length]
    and binds [fig]. *)
Definition visualization : M num unit :=
  _ ← var "r"; _ ← var "diag_length";
  assign "fig" VObj.

(** Lines 86-95 and 99-108: the five assignments, then a header and
    the four lines. *)
Definition example_block (header : string) : M num unit :=
  diag_length;; sphere_radius;; sphere_volume;; x;; sin_pi_3;;
  (r ← var "r"; print (Plain header r "):"));;
  print_diag_length;; print_sphere_radius;;
  print_sphere_volume;; print_sin_pi_3.

(** The module body up to the test class. *)
Definition script : M num unit :=
  assign "r" (VNum (of_int 1));; main_block;; visualization;;
  assign "r" (VNum (of_int 2));; example_block (nl +:+ "Example 1 (r = ");;
  assign "r" (VNum (of_int 3));; example_block (nl +:+ "Example 2 (r = ").

(** The pipeline on an arbitrary side length: [r = v] followed by
    lines 27-41, started in interpreter state [s]. *)
Definition pipeline (v : num) : M num unit :=
  assign "r" (VNum v);; main_block.

Definition evaluate_from (s : interp num) (v : num)
  : result (EvaluationResult num) :=
  observe (pipeline v s).

Definition evaluate (v : num) : result (EvaluationResult num) :=
  evaluate_from fresh v.
End Script.
End SpecialAngles.

(** ** special_angles_numpy.py *)

Module SpecialAnglesNumpy.
Section Script.
Context {num : Type} `{!Arith num}.

(** Line 27: [diag_length = math.sqrt(r**2 + (math.sqrt(2)*r)**2)]. *)
Definition diag_length : M num unit :=
  r ← var "r";
  a ← lift (f_pow r 2);
  s2 ← lift (m_sqrt (of_int 2));
  r' ← var "r";
  b ← lift (f_pow (f_mul s2 r') 2);
  d ← lift (m_sqrt (f_add a b));
  assign "diag_length" (VNum d).

(** Line 31: [sphere_radius = diag_length / 2]. *)
Definition sphere_radius : M num unit :=
  d ← var "diag_length";
  q ← lift (f_truediv d (of_int 2));
  assign "sphere_radius" (VNum q).

(** Line 35: [sphere_volume = (4/3) * math.pi * sphere_radius**3]. *)
Definition sphere_volume : M num unit :=
  c ← lift (f_truediv (of_int 4) (of_int 3));
  rad ← var "sphere_radius";
  p ← lift (f_pow rad 3);
  assign "sphere_volume" (VNum (f_mul (f_mul c m_pi) p)).

(** Line 39: [x = r * math.sin(math.pi / 3)]. *)
Definition x : M num unit :=
  r ← var "r";
  t ← lift (f_truediv m_pi (of_int 3));
  sn ← lift (m_sin t);
  assign "x" (VNum (f_mul r sn)).

(** Line 40: [sin_pi_3 = sphere_volume / (math.pi * x**3)]. *)
Definition sin_pi_3 : M num unit :=
  vol ← var "sphere_volume";
  xv ← var "x";
  p ← lift (f_pow xv 3);
  q ← lift (f_truediv vol (f_mul m_pi p));
  assign "sin_pi_3" (VNum q).

Definition print_diag_length : M num unit :=
  d ← var "diag_length"; print (Fixed4 "Diagonal length of the cube: " d).
Definition print_sphere_radius : M num unit :=
  v ← var "sphere_radius"; print (Fixed4 "Radius of the sphere: " v).
Definition print_sphere_volume : M num unit :=
  v ← var "sphere_volume"; print (Fixed4 "Volume of the sphere: " v).
Definition print_sin_pi_3 : M num unit :=
  v ← var "sin_pi_3"; print (Fixed4 "sin(π/3) = " v).

(** Lines 27-41. *)
Definition main_block : M num unit :=
  diag_length;; print_diag_length;;
  sphere_radius;; print_sphere_radius;;
  sphere_volume;; print_sphere_volume;;
  x;; sin_pi_3;; print_sin_pi_3.

(** Lines 44-72: the Matplotlib figure.  It reads [r], [diag_length]
    and [sphere_radius]; the wireframe coordinates rebind the global
    [x] (and [y], [z]) to arrays. *)
Definition visualization : M num unit :=
  assign "fig" VObj;; assign "ax" VObj;;
  _ ← var "r";
  assign "cube_x" VObj;; assign "cube_y" VObj;; assign "cube_z" VObj;;
  _ ← var "diag_length";
  assign "diag_x" VObj;; assign "diag_y" VObj;; assign "diag_z" VObj;;
  assign "u" VObj;; assign "v" VObj;;
  _ ← var "sphere_radius";
  assign "x" VObj;; assign "y" VObj;; assign "z" VObj.

(** Lines 79-88 and 92-101. *)
Definition example_block (header : string) : M num unit :=
  diag_length;; sphere_radius;; sphere_volume;; x;; sin_pi_3;;
  (r ← var "r"; print (Plain header r "):"));;
  print_diag_length;; print_sphere_radius;;
  print_sphere_volume;; print_sin_pi_3.

(** The module body up to the test class. *)
Definition script : M num unit :=
  assign "r" (VNum (of_int 1));; main_block;; visualization;;
  assign "r" (VNum (of_int 2));; example_block (nl +:+ "Example 1 (r = ");;
  assign "r" (VNum (of_int 3));; example_block (nl +:+ "Example 2 (r = ").

Definition pipeline (v : num) : M num unit :=
  assign "r" (VNum v);; main_block.

Definition evaluate_from (s : interp num) (v : num)
  : result (EvaluationResult num) :=
  observe (pipeline v s).

Definition evaluate (v : num) : result (EvaluationResult num) :=
  evaluate_from fresh v.
End Script.
End SpecialAnglesNumpy.

(** ** The extracted evaluator

    The single function that section 4.1 of the specification asks for:
    the five assignments with the globals turned into local bindings.  It
    is compared with the scripts below. *)

Module Evaluator.
Section Pure.
Context {num : Type} `{!Arith num}.

Definition diag_length_of (r : num) : result num :=
  a ← f_pow r 2;
  s2 ← m_sqrt (of_int 2);
  b ← f_pow (f_mul s2 r) 2;
  m_sqrt (f_add a b).

Definition sphere_radius_of (d : num) : result num :=
  f_truediv d (of_int 2).

Definition sphere_volume_of (rad : num) : result num :=
  c ← f_truediv (of_int 4) (of_int 3);
  p ← f_pow rad 3;
  Ok (f_mul (f_mul c m_pi) p).

Definition x_of (r : num) : result num :=
  t ← f_truediv m_pi (of_int 3);
  sn ← m_sin t;
  Ok (f_mul r sn).

Definition identity_of (vol xv : num) : result num :=
  p ← f_pow xv 3;
  f_truediv vol (f_mul m_pi p).

Definition evaluate (r : num) : result (EvaluationResult num) :=
  d ← diag_length_of r;
  rad ← sphere_radius_of d;
  vol ← sphere_volume_of rad;
  xv ← x_of r;
  idv ← identity_of vol xv;
  Ok (mkResult num d rad vol idv).
End Pure.
End Evaluator.

(** ** Exact real arithmetic

    Python's operators and [math] functions read over the real numbers,
    with the exceptions they raise on a zero divisor and on a negative
    radicand.  Nothing rounds, overflows or underflows here, so [**]
    never raises and a run on a side other than 0 always returns: that
    is not so for the interpreter's doubles (see [FloatArith] below).
    The instance is used for the algebra of lines 27-40 (what the
    expressions are equal to as real numbers) and for runs on the sides
    0, 1, 2, 3 and -1; what holds of every side in binary64 is stated in
    [FloatArith], in [Accurate] arithmetics or in every arithmetic. *)

Definition R_truediv (a b : R) : result R :=
  if Req_dec_T b 0 then Err ZeroDivisionError else Ok (a / b)%R.

Definition R_sqrt (a : R) : result R :=
  if Rlt_dec a 0 then Err ValueError else Ok (sqrt a).

#[export] Instance RealArith : Arith R := {|
  of_int := IZR;
  f_add := Rplus;
  f_mul := Rmult;
  f_truediv := R_truediv;
  f_pow := fun a n => Ok (a ^ n)%R;
  m_sqrt := R_sqrt;
  m_sin := fun a => Ok (sin a);
  m_pi := PI
|}.

(** ** An arithmetic that records the operations

    Running a script in it shows, by computation, the expression each
    assignment evaluates. *)

Module Recorded.
Inductive expr : Type :=
| Lit (n : Z)
| Pi
| Add (a b : expr)
| Mul (a b : expr)
| Div (a b : expr)
| Pow (a : expr) (n : nat)
| Sqrt (a : expr)
| Sin (a : expr).

#[export] Instance RecordedArith : Arith expr := {|
  of_int := Lit;
  f_add := Add;
  f_mul := Mul;
  f_truediv := fun a b => Ok (Div a b);
  f_pow := fun a n => Ok (Pow a n);
  m_sqrt := fun a => Ok (Sqrt a);
  m_sin := fun a => Ok (Sin a);
  m_pi := Pi
|}.

(** The four expressions of lines 27-40 in a side length [r]. *)
Definition diag_length_expr (r : expr) : expr :=
  Sqrt (Add (Pow r 2) (Pow (Mul (Sqrt (Lit 2)) r) 2)).

Definition sphere_radius_expr (r : expr) : expr :=
  Div (diag_length_expr r) (Lit 2).

Definition sphere_volume_expr (r : expr) : expr :=
  Mul (Mul (Div (Lit 4) (Lit 3)) Pi) (Pow (sphere_radius_expr r) 3).

Definition sin_pi_3_expr (r : expr) : expr :=
  Div (sphere_volume_expr r)
    (Mul Pi (Pow (Mul r (Sin (Div Pi (Lit 3)))) 3)).
End Recorded.

(** [a] shows as [b] when both are rounded to [places] decimals: the
    distance is at most half a unit of the last place. *)
Definition approx (places : nat) (a b : R) : Prop :=
  (Rabs (a - b) <= / 2 * / 10 ^ places)%R.

(** Relative tolerance, as in [math.isclose (a, b, rel_tol = tol)] with
    [b] the reference value. *)
Definition rel_close (tol a b : R) : Prop :=
  (Rabs (a - b) <= tol * Rabs b)%R.

(** The four numbers of a run on a positive side length. *)
Definition positive_result (r : R) : EvaluationResult R :=
  (mkResult R (r * sqrt 3) (r * sqrt 3 / 2)
     (4 / 3 * PI * (r * sqrt 3 / 2) ^ 3) (4 / 3))%R.

(** ** Symbolic runs

    What a run of the five assignments does to an interpreter state,
    written with the functions of [Evaluator]: the state after each
    statement, and the place where an exception stops the run. *)

Section Trace.
Context {num : Type} `{!Arith num}.

Definition bound (name : string) (v : num) (s : interp num) : interp num :=
  mkInterp (<[name := VNum v]> (globals s)) (stdout s).

Definition printed (l : line num) (s : interp num) : interp num :=
  mkInterp (globals s) (stdout s ++ [l]).

(** The four lines of a report. *)
Definition report (e : EvaluationResult num) : list (line num) :=
  [ Fixed4 "Diagonal length of the cube: " (diagonalLength e);
    Fixed4 "Radius of the sphere: " (sphereRadius e);
    Fixed4 "Volume of the sphere: " (sphereVolume e);
    Fixed4 "sin(π/3) = " (identityValue e) ].

(** Lines 27-41 started with [r = v] in state [s]. *)
Definition main_trace (v : num) (s : interp num) : result unit * interp num :=
  let s0 := bound "r" v s in
  match Evaluator.diag_length_of v with
  | inl e => (Err e, s0)
  | inr d =>
      let s1 := printed (Fixed4 "Diagonal length of the cube: " d)
                  (bound "diag_length" d s0) in
      match Evaluator.sphere_radius_of d with
      | inl e => (Err e, s1)
      | inr rad =>
          let s2 := printed (Fixed4 "Radius of the sphere: " rad)
                      (bound "sphere_radius" rad s1) in
          match Evaluator.sphere_volume_of rad with
          | inl e => (Err e, s2)
          | inr vol =>
              let s3 := printed (Fixed4 "Volume of the sphere: " vol)
                          (bound "sphere_volume" vol s2) in
              match Evaluator.x_of v with
              | inl e => (Err e, s3)
              | inr xv =>
                  let s4 := bound "x" xv s3 in
                  match Evaluator.identity_of vol xv with
                  | inl e => (Err e, s4)
                  | inr idv =>
                      (Ok tt, printed (Fixed4 "sin(π/3) = " idv)
                                (bound "sin_pi_3" idv s4))
                  end
              end
          end
      end
  end.

(** The globals after the five assignments alone. *)
Definition assigned (v d rad vol xv idv : num) (s : interp num)
  : interp num :=
  bound "sin_pi_3" idv (bound "x" xv (bound "sphere_volume" vol
    (bound "sphere_radius" rad (bound "diag_length" d (bound "r" v s))))).

(** An example block (lines 85-95 of [special_angles.py]) started with
    [r = v] in state [s]: nothing is printed unless all five
    assignments succeed. *)
Definition example_trace (header : string) (v : num) (s : interp num)
  : result unit * interp num :=
  let s0 := bound "r" v s in
  match Evaluator.diag_length_of v with
  | inl e => (Err e, s0)
  | inr d =>
      let s1 := bound "diag_length" d s0 in
      match Evaluator.sphere_radius_of d with
      | inl e => (Err e, s1)
      | inr rad =>
          let s2 := bound "sphere_radius" rad s1 in
          match Evaluator.sphere_volume_of rad with
          | inl e => (Err e, s2)
          | inr vol =>
              let s3 := bound "sphere_volume" vol s2 in
              match Evaluator.x_of v with
              | inl e => (Err e, s3)
              | inr xv =>
                  let s4 := bound "x" xv s3 in
                  match Evaluator.identity_of vol xv with
                  | inl e => (Err e, s4)
                  | inr idv =>
                      let s5 := assigned v d rad vol xv idv s in
                      (Ok tt,
                       mkInterp (globals s5)
                         (stdout s ++ Plain header v "):"
                            :: report (mkResult num d rad vol idv)))
                  end
              end
          end
      end
  end.

(** A module body around a figure [viz]: the first run, the figure, and
    the two example blocks. *)
Definition script_around (viz : M num unit) : M num unit :=
  SpecialAngles.pipeline (of_int 1) ≫= λ _,
  viz ≫= λ _,
  (assign "r" (VNum (of_int 2));;
     SpecialAngles.example_block (nl +:+ "Example 1 (r = ")) ≫= λ _,
  (assign "r" (VNum (of_int 3));;
     SpecialAngles.example_block (nl +:+ "Example 2 (r = ")).
End Trace.

(** The global names lines 24-40 assign. *)
Definition assigned_names : list string :=
  ["r"; "diag_length"; "sphere_radius"; "sphere_volume"; "x"; "sin_pi_3"].

(** The names whose values a report shows, and [r]. *)
Definition reported_names : list string :=
  ["r"; "diag_length"; "sphere_radius"; "sphere_volume"; "sin_pi_3"].

(** ** The test class

    Lines 113-148 of [special_angles.py] and 106-141 of
    [special_angles_numpy.py].  A test method works on local variables.
    [assertAlmostEqual (first, second, places = n)] of [unittest] returns
    when [first == second], and otherwise when
    [round (abs (first - second), n) == 0]; else it raises
    [AssertionError], which the runner counts as a failure.  Any other
    exception in a test method is counted as an error. *)

Module Unittest.
Inductive outcome : Type :=
| Passed
| Failed
| Errored (e : exn).

(** Comparison, subtraction, [abs] and [round] of numbers. *)
Class Compare (num : Type) : Type := {
  f_eq : num -> num -> bool;
  f_sub : num -> num -> num;
  f_abs : num -> num;
  f_round : num -> nat -> num
}.

Section TestCase.
Context {num : Type} `{!Arith num} `{!Compare num}.

(** [true] when the assertion returns, [false] when it raises. *)
Definition assertAlmostEqual (first second : num) (places : nat) : bool :=
  if f_eq first second then true
  else f_eq (f_round (f_abs (f_sub first second)) places) (of_int 0).

(** The runner's verdict on a test method whose body ends with one
    assertion. *)
Definition run_test (body : result bool) : outcome :=
  match body with
  | inl e => Errored e
  | inr true => Passed
  | inr false => Failed
  end.

Definition passed (o : outcome) : bool :=
  match o with
  | Passed => true
  | _ => false
  end.

Definition wasSuccessful (outcomes : list outcome) : bool :=
  forallb passed outcomes.

(** [unittest.main ()] ends the process with [sys.exit (not
    wasSuccessful)]. *)
Definition main (outcomes : list outcome) : Z :=
  if wasSuccessful outcomes then 0%Z else 1%Z.
End TestCase.
End Unittest.

Import Unittest.

(** The test class of [special_angles.py]. *)
Module TestReformulationOfSpecialAngles.
Section Tests.
Context {num : Type} `{!Arith num} `{!Compare num}.

(** Lines 116-120. *)
Definition test_diagonal_length : outcome :=
  run_test (
    let r := of_int 1 in
    expected_diag_length ← Evaluator.diag_length_of r;
    diag_length ← Evaluator.diag_length_of r;
    Ok (assertAlmostEqual diag_length expected_diag_length 4)).

(** Lines 122-127. *)
Definition test_sphere_radius : outcome :=
  run_test (
    let r := of_int 1 in
    diag_length ← Evaluator.diag_length_of r;
    expected_sphere_radius ← Evaluator.sphere_radius_of diag_length;
    sphere_radius ← Evaluator.sphere_radius_of diag_length;
    Ok (assertAlmostEqual sphere_radius expected_sphere_radius 4)).

(** Lines 129-135. *)
Definition test_sphere_volume : outcome :=
  run_test (
    let r := of_int 1 in
    diag_length ← Evaluator.diag_length_of r;
    sphere_radius ← Evaluator.sphere_radius_of diag_length;
    expected_sphere_volume ← Evaluator.sphere_volume_of sphere_radius;
    sphere_volume ← Evaluator.sphere_volume_of sphere_radius;
    Ok (assertAlmostEqual sphere_volume expected_sphere_volume 4)).

(** Lines 137-145. *)
Definition test_sin_pi_3 : outcome :=
  run_test (
    let r := of_int 1 in
    diag_length ← Evaluator.diag_length_of r;
    sphere_radius ← Evaluator.sphere_radius_of diag_length;
    sphere_volume ← Evaluator.sphere_volume_of sphere_radius;
    x ← Evaluator.x_of r;
    expected_sin_pi_3 ← Evaluator.identity_of sphere_volume x;
    sin_pi_3 ← Evaluator.identity_of sphere_volume x;
    Ok (assertAlmostEqual sin_pi_3 expected_sin_pi_3 4)).

(** The methods in the order the loader runs them (sorted by name). *)
Definition tests : list outcome :=
  [test_diagonal_length; test_sin_pi_3; test_sphere_radius;
   test_sphere_volume].

(** The file run as a program: the module body, then lines 147-148.  An
    exception of the module body ends the process with status 1 before
    any test runs. *)
Definition program (s : interp num) : Z * interp num :=
  match SpecialAngles.script s with
  | (inl _, s') => (1%Z, s')
  | (inr _, s') => (main tests, s')
  end.
End Tests.
End TestReformulationOfSpecialAngles.

(** The test class of [special_angles_numpy.py]. *)
Module TestReformulationOfSpecialAnglesNumpy.
Section Tests.
Context {num : Type} `{!Arith num} `{!Compare num}.

(** Lines 109-113. *)
Definition test_diagonal_length : outcome :=
  run_test (
    let r := of_int 1 in
    expected_diag_length ← Evaluator.diag_length_of r;
    diag_length ← Evaluator.diag_length_of r;
    Ok (assertAlmostEqual diag_length expected_diag_length 4)).

(** Lines 115-120. *)
Definition test_sphere_radius : outcome :=
  run_test (
    let r := of_int 1 in
    diag_length ← Evaluator.diag_length_of r;
    expected_sphere_radius ← Evaluator.sphere_radius_of diag_length;
    sphere_radius ← Evaluator.sphere_radius_of diag_length;
    Ok (assertAlmostEqual sphere_radius expected_sphere_radius 4)).

(** Lines 122-128. *)
Definition test_sphere_volume : outcome :=
  run_test (
    let r := of_int 1 in
    diag_length ← Evaluator.diag_length_of r;
    sphere_radius ← Evaluator.sphere_radius_of diag_length;
    expected_sphere_volume ← Evaluator.sphere_volume_of sphere_radius;
    sphere_volume ← Evaluator.sphere_volume_of sphere_radius;
    Ok (assertAlmostEqual sphere_volume expected_sphere_volume 4)).

(** Lines 130-138. *)
Definition test_sin_pi_3 : outcome :=
  run_test (
    let r := of_int 1 in
    diag_length ← Evaluator.diag_length_of r;
    sphere_radius ← Evaluator.sphere_radius_of diag_length;
    sphere_volume ← Evaluator.sphere_volume_of sphere_radius;
    x ← Evaluator.x_of r;
    expected_sin_pi_3 ← Evaluator.identity_of sphere_volume x;
    sin_pi_3 ← Evaluator.identity_of sphere_volume x;
    Ok (assertAlmostEqual sin_pi_3 expected_sin_pi_3 4)).

Definition tests : list outcome :=
  [test_diagonal_length; test_sin_pi_3; test_sphere_radius;
   test_sphere_volume].

(** The module body, then lines 140-141. *)
Definition program (s : interp num) : Z * interp num :=
  match SpecialAnglesNumpy.script s with
  | (inl _, s') => (1%Z, s')
  | (inr _, s') => (main tests, s')
  end.
End Tests.
End TestReformulationOfSpecialAnglesNumpy.

(** Comparison over the real numbers; [round] rounds half to even. *)
Definition R_eqb (a b : R) : bool :=
  if Req_dec_T a b then true else false.

Definition round_half_even (y : R) : Z :=
  let f := (up y - 1)%Z in
  let frac := (y - IZR f)%R in
  if Rlt_dec frac (/ 2) then f
  else if Rlt_dec (/ 2) frac then (f + 1)%Z
  else if Z.even f then f else (f + 1)%Z.

Definition R_round (a : R) (places : nat) : R :=
  (IZR (round_half_even (a * 10 ^ places)) / 10 ^ places)%R.

#[export] Instance RealCompare : Compare R := {|
  f_eq := R_eqb;
  f_sub := Rminus;
  f_abs := Rabs;
  f_round := R_round
|}.

(** ** The data of the figures

    The coordinate lists both files hand to the plotting library: the
    cube (lines 46-48 of [special_angles.py], 48-50 of
    [special_angles_numpy.py]) and the segment labelled [Diagonal] (lines
    54-56 and 54-56). *)

Module Figure.
Section Data.
Context {num : Type} `{!Arith num}.

Definition cube_x (r : num) : list num :=
  [of_int 0; r; r; of_int 0; of_int 0; r; r; of_int 0].
Definition cube_y (r : num) : list num :=
  [of_int 0; of_int 0; r; r; of_int 0; of_int 0; r; r].
Definition cube_z (r : num) : list num :=
  [of_int 0; of_int 0; of_int 0; of_int 0; r; r; r; r].

(** The points plotted: the three lists read column by column. *)
Definition points (xs ys zs : list num) : list (num * num * num) :=
  zip (zip xs ys) zs.

Definition cube (r : num) : list (num * num * num) :=
  points (cube_x r) (cube_y r) (cube_z r).

(** [x = [0, diag_length/2]], [y = [0, diag_length/2]], [z = [0, 0]]. *)
Definition diagonal (diag_length : num) : result (list (num * num * num)) :=
  hx ← f_truediv diag_length (of_int 2);
  hy ← f_truediv diag_length (of_int 2);
  Ok (points [of_int 0; hx] [of_int 0; hy] [of_int 0; of_int 0]).
End Data.
End Figure.

(** Euclidean distance of two points. *)
Definition distance (p q : R * R * R) : R :=
  let '(px, py, pz) := p in
  let '(qx, qy, qz) := q in
  sqrt ((px - qx) ^ 2 + (py - qy) ^ 2 + (pz - qz) ^ 2)%R.

(** ** Python's [float]: IEEE 754 binary64

    [+], [*], [/] and [math.sqrt] are the correctly rounded operations
    of the format.  [float.__truediv__] raises [ZeroDivisionError] on a
    zero divisor, [float.__pow__] raises [OverflowError] when the power
    of a finite number does not fit a double, [math.sqrt] raises
    [ValueError] below zero and [math.sin] at an infinity.  Underflow
    raises nothing: the result is a subnormal number or zero. *)

(** The double nearest to [m * 2^e], ties to even. *)
Definition F_round (m e : Z) : float :=
  SF2Prim (SpecFloat.binary_normalize FloatOps.prec FloatOps.emax m e false).

Definition F_of_int (z : Z) : float := F_round z 0.

Definition F_truediv (a b : float) : result float :=
  if PrimFloat.eqb b 0 then Err ZeroDivisionError
  else Ok (PrimFloat.div a b).

(** [a ** n] before the range check, for an exponent [n >= 0]: the
    cases [float.__pow__] settles itself (exponent 0, a NaN, an infinity,
    a zero), and the C library's [pow], read as the correctly rounded
    power; the sign is that of [a] when [n] is odd. *)
Definition F_power (a : float) (n : nat) : float :=
  match n with
  | O => 1%float
  | S _ =>
      match Prim2SF a with
      | S754_nan => nan
      | S754_infinity s =>
          if s && Nat.odd n then neg_infinity else infinity
      | S754_zero s => if s && Nat.odd n then (-0)%float else 0%float
      | S754_finite s m e =>
          let p := (Z.pos m ^ Z.of_nat n)%Z in
          F_round (if s && Nat.odd n then - p else p)%Z (e * Z.of_nat n)
      end
  end.

Definition F_pow (a : float) (n : nat) : result float :=
  let p := F_power a n in
  if PrimFloat.is_infinity p && negb (PrimFloat.is_infinity a)
  then Err OverflowError
  else Ok p.

Definition F_sqrt (a : float) : result float :=
  if PrimFloat.ltb a 0 then Err ValueError else Ok (PrimFloat.sqrt a).

(** [math.pi], and the double [math.pi / 3]. *)
Definition F_pi : float := 0x1.921fb54442d18p+1%float.
Definition F_pi_3 : float := 0x1.0c152382d7365p+0%float.

(** The C library's [sin].  Both files call [math.sin] on
    [math.pi / 3] and on nothing else (line 39 and its two copies in the
    example blocks); there it returns the double nearest to the sine of
    that double.  The table has this one entry: [nan] stands for the
    values it does not hold, and no statement below rests on one. *)
Definition F_libm_sin (a : float) : float :=
  if PrimFloat.eqb a F_pi_3 then 0x1.bb67ae8584caap-1%float else nan.

Definition F_sin (a : float) : result float :=
  if PrimFloat.is_infinity a then Err ValueError else Ok (F_libm_sin a).

#[export] Instance FloatArith : Arith float := {|
  of_int := F_of_int;
  f_add := PrimFloat.add;
  f_mul := PrimFloat.mul;
  f_truediv := F_truediv;
  f_pow := F_pow;
  m_sqrt := F_sqrt;
  m_sin := F_sin;
  m_pi := F_pi
|}.

(** The real number a finite double stands for. *)
Definition two_power (e : Z) : R :=
  match e with
  | Z0 => 1%R
  | Zpos p => IZR (2 ^ Zpos p)
  | Zneg p => (/ IZR (2 ^ Zpos p))%R
  end.

Definition F2R (a : float) : R :=
  match Prim2SF a with
  | S754_finite s m e =>
      ((if s then - IZR (Zpos m) else IZR (Zpos m)) * two_power e)%R
  | _ => 0%R
  end.

(** The doubles that [float ("1e-200")], [float ("1e-107")],
    [float ("1e103")] and [float ("1e200")] denote. *)
Definition F_1e_200 : float := 0x1.87e92154ef7acp-665%float.
Definition F_1e_107 : float := 0x1.77c44ddf6c516p-356%float.
Definition F_1e103 : float := 0x1.1dbf316b346e8p+342%float.
Definition F_1e200 : float := 0x1.4e718d7d7625ap+664%float.

(** ** Arithmetic with a bounded relative error

    An arithmetic on real numbers in which the operations of lines 27-35
    return their exact value up to a relative error [eps], division
    raises only on a zero divisor and the square root only on a negative
    radicand.  This is the standard model of floating-point arithmetic:
    binary64 operations are of this kind, with [eps] of the order of
    [2^-52], as long as they neither overflow nor underflow.  Exact real
    arithmetic is of this kind with [eps = 0]. *)

Record Accurate (eps : R) (A : Arith R) : Prop := {
  accurate_of_int : forall z : Z, rel_close eps (of_int z) (IZR z);
  accurate_add : forall a b : R, rel_close eps (f_add a b) (a + b);
  accurate_mul : forall a b : R, rel_close eps (f_mul a b) (a * b);
  accurate_truediv : forall a b : R, b <> 0%R ->
    exists q : R, f_truediv a b = Ok q /\ rel_close eps q (a / b);
  accurate_pow : forall (a : R) (n : nat),
    exists p : R, f_pow a n = Ok p /\ rel_close eps p (a ^ n);
  accurate_sqrt : forall a : R, (0 <= a)%R ->
    exists q : R, m_sqrt a = Ok q /\ rel_close eps q (sqrt a);
  accurate_pi : rel_close eps m_pi PI
}.

(** [x] is [X > 0] up to [k] relative errors of size [eps]: each of the
    two is at most the other times [(1 + 2 eps)^k]. *)
Definition near (eps : R) (k : nat) (X x : R) : Prop :=
  (0 < X /\ X <= x * (1 + 2 * eps) ^ k /\ x <= X * (1 + 2 * eps) ^ k)%R.

(** Exact real arithmetic followed by a rounding [rnd] of every
    result. *)
Definition RoundedArith (rnd : R -> R) : Arith R := {|
  of_int := fun z => rnd (IZR z);
  f_add := fun a b => rnd (a + b)%R;
  f_mul := fun a b => rnd (a * b)%R;
  f_truediv := fun a b =>
    if Req_dec_T b 0 then Err ZeroDivisionError else Ok (rnd (a / b)%R);
  f_pow := fun a n => Ok (rnd (a ^ n)%R);
  m_sqrt := fun a =>
    if Rlt_dec a 0 then Err ValueError else Ok (rnd (sqrt a));
  m_sin := fun a => Ok (rnd (sin a));
  m_pi := rnd PI
|}.

(** A rounding that is never exact: every result is enlarged by the
    factor [1 + 1e-12]. *)
Definition slightly_up (x : R) : R := (x * (1 + 1 / 10 ^ 12))%R.

(** ** Where an exception of a run comes from *)

(** [ex] is raised by one of the four partial operations of the
    arithmetic. *)
Definition raised_by_arithmetic {num : Type} `{!Arith num} (ex : exn)
  : Prop :=
  (exists (a : num) (n : nat), f_pow a n = Err ex) \/
  (exists a : num, m_sqrt a = Err ex) \/
  (exists a b : num, f_truediv a b = Err ex) \/
  (exists a : num, m_sin a = Err ex).

(** The exceptions of Python's [float] and [math]. *)
Definition builtin_arithmetic_error (ex : exn) : Prop :=
  ex = ZeroDivisionError \/ ex = OverflowError \/ ex = ValueError.

(** ** Running the statements *)

Section Monad.
Context {num : Type}.
Implicit Types (s : interp num) (v : num).

Lemma bind_run {A B : Type} (m : M num A) (k : A -> M num B) s :
  (m ≫= k) s =
  match m s with
  | (inr a, s') => k a s'
  | (inl e, s') => (Err e, s')
  end.
Proof. reflexivity. Qed.

Lemma bind_assoc_run {A B C : Type}
  (m : M num A) (k : A -> M num B) (k' : B -> M num C) s :
  (m ≫= λ a, k a ≫= k') s = ((m ≫= k) ≫= k') s.
Proof.
  cbv beta iota delta [mbind M_bind bind].
  destruct (m s) as [[e|a] s']; reflexivity.
Qed.

Lemma var_run s name v :
  globals s !! name = Some (VNum v) -> var name s = (Ok v, s).
Proof. intros E. unfold var. rewrite E. reflexivity. Qed.
End Monad.

Ltac exec :=
  cbv beta iota delta
    [mbind M_bind bind result_bind bind_result lift assign print Ok Err].

(** A global that one of the latest assignments has bound. *)
Ltac lookup_global :=
  unfold assigned, printed, bound; cbn [globals];
  repeat (rewrite lookup_insert_ne by done);
  first [apply lookup_insert_eq | eassumption].

(** Run the first statement of a sequence with its lemma [run]. *)
Tactic Notation "step" uconstr(run) :=
  rewrite bind_run; erewrite run by lookup_global;
  cbv beta iota delta [Ok].

(** Continue with the known outcome [E] of an operation. *)
Ltac known E := rewrite E; cbv beta iota zeta delta [Ok].

(** Split on the outcome of an operation; an exception ends the run. *)
Ltac outcome :=
  match goal with
  | |- context [match ?t with inl _ => _ | inr _ => _ end] =>
      destruct t as [?|?]; [reflexivity|]; cbv beta iota delta [Ok]
  end.

Section Runs.
Context {num : Type} `{!Arith num}.
Implicit Types (s : interp num) (v d rad vol xv idv : num).

Lemma run_diag_length s v :
  globals s !! "r" = Some (VNum v) ->
  SpecialAngles.diag_length s =
  match Evaluator.diag_length_of v with
  | inr d => (Ok tt, bound "diag_length" d s)
  | inl e => (Err e, s)
  end.
Proof.
  intros E. unfold SpecialAngles.diag_length, Evaluator.diag_length_of.
  exec. rewrite !(var_run _ _ _ E). exec.
  destruct (f_pow v 2); [reflexivity|].
  destruct (m_sqrt (of_int 2)); [reflexivity|].
  destruct (f_pow _ 2); [reflexivity|].
  destruct (m_sqrt _); reflexivity.
Qed.

Lemma run_sphere_radius s d :
  globals s !! "diag_length" = Some (VNum d) ->
  SpecialAngles.sphere_radius s =
  match Evaluator.sphere_radius_of d with
  | inr rad => (Ok tt, bound "sphere_radius" rad s)
  | inl e => (Err e, s)
  end.
Proof.
  intros E. unfold SpecialAngles.sphere_radius, Evaluator.sphere_radius_of.
  exec. rewrite (var_run _ _ _ E). exec.
  destruct (f_truediv d _); reflexivity.
Qed.

Lemma run_sphere_volume s rad :
  globals s !! "sphere_radius" = Some (VNum rad) ->
  SpecialAngles.sphere_volume s =
  match Evaluator.sphere_volume_of rad with
  | inr vol => (Ok tt, bound "sphere_volume" vol s)
  | inl e => (Err e, s)
  end.
Proof.
  intros E. unfold SpecialAngles.sphere_volume, Evaluator.sphere_volume_of.
  exec. destruct (f_truediv _ _); [reflexivity|].
  rewrite (var_run _ _ _ E). exec.
  destruct (f_pow rad 3); reflexivity.
Qed.

Lemma run_x s v :
  globals s !! "r" = Some (VNum v) ->
  SpecialAngles.x s =
  match Evaluator.x_of v with
  | inr xv => (Ok tt, bound "x" xv s)
  | inl e => (Err e, s)
  end.
Proof.
  intros E. unfold SpecialAngles.x, Evaluator.x_of.
  exec. rewrite (var_run _ _ _ E). exec.
  destruct (f_truediv _ _); [reflexivity|].
  destruct (m_sin _); reflexivity.
Qed.

Lemma run_sin_pi_3 s vol xv :
  globals s !! "sphere_volume" = Some (VNum vol) ->
  globals s !! "x" = Some (VNum xv) ->
  SpecialAngles.sin_pi_3 s =
  match Evaluator.identity_of vol xv with
  | inr idv => (Ok tt, bound "sin_pi_3" idv s)
  | inl e => (Err e, s)
  end.
Proof.
  intros E1 E2. unfold SpecialAngles.sin_pi_3, Evaluator.identity_of.
  exec. rewrite (var_run _ _ _ E1), (var_run _ _ _ E2). exec.
  destruct (f_pow xv 3); [reflexivity|].
  destruct (f_truediv _ _); reflexivity.
Qed.

Lemma run_print_diag_length s d :
  globals s !! "diag_length" = Some (VNum d) ->
  SpecialAngles.print_diag_length s =
  (Ok tt, printed (Fixed4 "Diagonal length of the cube: " d) s).
Proof.
  intros E. unfold SpecialAngles.print_diag_length. exec.
  rewrite (var_run _ _ _ E). reflexivity.
Qed.

Lemma run_print_sphere_radius s rad :
  globals s !! "sphere_radius" = Some (VNum rad) ->
  SpecialAngles.print_sphere_radius s =
  (Ok tt, printed (Fixed4 "Radius of the sphere: " rad) s).
Proof.
  intros E. unfold SpecialAngles.print_sphere_radius. exec.
  rewrite (var_run _ _ _ E). reflexivity.
Qed.

Lemma run_print_sphere_volume s vol :
  globals s !! "sphere_volume" = Some (VNum vol) ->
  SpecialAngles.print_sphere_volume s =
  (Ok tt, printed (Fixed4 "Volume of the sphere: " vol) s).
Proof.
  intros E. unfold SpecialAngles.print_sphere_volume. exec.
  rewrite (var_run _ _ _ E). reflexivity.
Qed.

Lemma run_print_sin_pi_3 s idv :
  globals s !! "sin_pi_3" = Some (VNum idv) ->
  SpecialAngles.print_sin_pi_3 s =
  (Ok tt, printed (Fixed4 "sin(π/3) = " idv) s).
Proof.
  intros E. unfold SpecialAngles.print_sin_pi_3. exec.
  rewrite (var_run _ _ _ E). reflexivity.
Qed.

(** Lines 27-41 run as [main_trace] says. *)
Lemma pipeline_run s v : SpecialAngles.pipeline v s = main_trace v s.
Proof.
  unfold SpecialAngles.pipeline, SpecialAngles.main_block, main_trace.
  rewrite bind_run.
  change (assign "r" (VNum v) s) with (Ok tt, bound "r" v s).
  cbv beta iota delta [Ok].
  step (run_diag_length _ v). outcome.
  step run_print_diag_length.
  step run_sphere_radius. outcome.
  step run_print_sphere_radius.
  step run_sphere_volume. outcome.
  step run_print_sphere_volume.
  step (run_x _ v). outcome.
  step run_sin_pi_3. outcome.
  erewrite run_print_sin_pi_3 by lookup_global.
  reflexivity.
Qed.
End Runs.

Section Traces.
Context {num : Type} `{!Arith num}.
Implicit Types (s : interp num) (v d rad vol xv idv : num).

(** An example block runs as [example_trace] says. *)
Lemma example_run header s v :
  (assign "r" (VNum v);; SpecialAngles.example_block header) s
  = example_trace header v s.
Proof.
  unfold SpecialAngles.example_block, example_trace.
  rewrite bind_run.
  change (assign "r" (VNum v) s) with (Ok tt, bound "r" v s).
  cbv beta iota delta [Ok].
  step (run_diag_length _ v). outcome.
  step run_sphere_radius. outcome.
  step run_sphere_volume. outcome.
  step (run_x _ v). outcome.
  step run_sin_pi_3. outcome.
  rewrite bind_run, (bind_run (var "r")), (var_run _ "r" v) by lookup_global.
  cbv beta iota delta [Ok print].
  step run_print_diag_length.
  step run_print_sphere_radius.
  step run_print_sphere_volume.
  erewrite run_print_sin_pi_3 by lookup_global.
  unfold printed, assigned, bound, report;
    cbn [globals stdout diagonalLength sphereRadius sphereVolume
         identityValue].
  rewrite <- !app_assoc. reflexivity.
Qed.

(** What a finished run of lines 27-41 leaves behind. *)
Lemma main_trace_ok s v s' :
  main_trace v s = (Ok tt, s') ->
  exists d rad vol xv idv,
    Evaluator.evaluate v = Ok (mkResult num d rad vol idv) /\
    globals s' = globals (assigned v d rad vol xv idv s) /\
    stdout s' = (stdout s ++ report (mkResult num d rad vol idv))%list.
Proof.
  unfold main_trace, Evaluator.evaluate. exec.
  destruct (Evaluator.diag_length_of v) as [e|d]; [discriminate|].
  destruct (Evaluator.sphere_radius_of d) as [e|rad]; [discriminate|].
  destruct (Evaluator.sphere_volume_of rad) as [e|vol]; [discriminate|].
  destruct (Evaluator.x_of v) as [e|xv]; [discriminate|].
  destruct (Evaluator.identity_of vol xv) as [e|idv]; [discriminate|].
  intros [= <-]. exists d, rad, vol, xv, idv.
  split; [reflexivity|]. split; [reflexivity|].
  unfold printed, bound, report;
    cbn [globals stdout diagonalLength sphereRadius sphereVolume
         identityValue].
  rewrite <- !app_assoc. reflexivity.
Qed.

(** The outcome of lines 27-41 is that of the extracted evaluator. *)
Lemma observe_main_trace s v :
  observe (main_trace v s) = Evaluator.evaluate v.
Proof.
  unfold main_trace, Evaluator.evaluate. exec.
  destruct (Evaluator.diag_length_of v) as [e|d]; [reflexivity|].
  destruct (Evaluator.sphere_radius_of d) as [e|rad]; [reflexivity|].
  destruct (Evaluator.sphere_volume_of rad) as [e|vol]; [reflexivity|].
  destruct (Evaluator.x_of v) as [e|xv]; [reflexivity|].
  destruct (Evaluator.identity_of vol xv) as [e|idv]; [reflexivity|].
  unfold observe, read, printed, bound; cbn [globals].
  repeat first [rewrite lookup_insert_eq | rewrite lookup_insert_ne by done].
  reflexivity.
Qed.

Lemma evaluate_from_pure s v :
  SpecialAngles.evaluate_from s v = Evaluator.evaluate v.
Proof.
  unfold SpecialAngles.evaluate_from.
  rewrite pipeline_run. apply observe_main_trace.
Qed.

(** Exception or not, and the text printed, do not depend on the
    globals a block starts with. *)
Lemma main_trace_frame s1 s2 v :
  stdout s1 = stdout s2 ->
  fst (main_trace v s1) = fst (main_trace v s2) /\
  stdout (snd (main_trace v s1)) = stdout (snd (main_trace v s2)).
Proof.
  intros E. unfold main_trace.
  destruct (Evaluator.diag_length_of v) as [e|d]; [by split|].
  destruct (Evaluator.sphere_radius_of d) as [e|rad];
    [split; [done | cbn; by rewrite E] |].
  destruct (Evaluator.sphere_volume_of rad) as [e|vol];
    [split; [done | cbn; by rewrite E] |].
  destruct (Evaluator.x_of v) as [e|xv];
    [split; [done | cbn; by rewrite E] |].
  destruct (Evaluator.identity_of vol xv) as [e|idv];
    split; first [done | cbn; by rewrite E].
Qed.

Lemma example_trace_frame header s1 s2 v :
  stdout s1 = stdout s2 ->
  fst (example_trace header v s1) = fst (example_trace header v s2) /\
  stdout (snd (example_trace header v s1))
  = stdout (snd (example_trace header v s2)).
Proof.
  intros E. unfold example_trace.
  destruct (Evaluator.diag_length_of v) as [e|d]; [by split|].
  destruct (Evaluator.sphere_radius_of d) as [e|rad]; [by split|].
  destruct (Evaluator.sphere_volume_of rad) as [e|vol]; [by split|].
  destruct (Evaluator.x_of v) as [e|xv]; [by split|].
  destruct (Evaluator.identity_of vol xv) as [e|idv]; [by split|].
  split; [done | cbn; by rewrite E].
Qed.

(** A run in which all five operations succeed. *)
Lemma main_trace_finished s v d rad vol xv idv :
  Evaluator.diag_length_of v = Ok d ->
  Evaluator.sphere_radius_of d = Ok rad ->
  Evaluator.sphere_volume_of rad = Ok vol ->
  Evaluator.x_of v = Ok xv ->
  Evaluator.identity_of vol xv = Ok idv ->
  main_trace v s
  = (Ok tt, mkInterp (globals (assigned v d rad vol xv idv s))
              (stdout s ++ report (mkResult num d rad vol idv))).
Proof.
  intros E1 E2 E3 E4 E5. unfold main_trace.
  known E1. known E2. known E3. known E4. known E5.
  unfold printed, assigned, bound, report;
    cbn [globals stdout diagonalLength sphereRadius sphereVolume
         identityValue].
  rewrite <- !app_assoc. reflexivity.
Qed.

Lemma example_trace_finished header s v d rad vol xv idv :
  Evaluator.diag_length_of v = Ok d ->
  Evaluator.sphere_radius_of d = Ok rad ->
  Evaluator.sphere_volume_of rad = Ok vol ->
  Evaluator.x_of v = Ok xv ->
  Evaluator.identity_of vol xv = Ok idv ->
  example_trace header v s
  = (Ok tt, mkInterp (globals (assigned v d rad vol xv idv s))
              (stdout s ++ Plain header v "):"
                 :: report (mkResult num d rad vol idv))).
Proof.
  intros E1 E2 E3 E4 E5. unfold example_trace.
  known E1. known E2. known E3. known E4. known E5.
  reflexivity.
Qed.

Lemma evaluate_pure v : SpecialAngles.evaluate v = Evaluator.evaluate v.
Proof. apply evaluate_from_pure. Qed.

Lemma numpy_evaluate_from_pure s v :
  SpecialAnglesNumpy.evaluate_from s v = Evaluator.evaluate v.
Proof. apply (evaluate_from_pure s v). Qed.

Lemma numpy_evaluate_pure v :
  SpecialAnglesNumpy.evaluate v = Evaluator.evaluate v.
Proof. apply (evaluate_from_pure fresh v). Qed.
End Traces.

Section Scripts.
Context {num : Type} `{!Arith num}.
Implicit Types (s : interp num) (v d rad vol xv idv : num).

(** The five assignments and the blocks built from them are the same
    text in both files. *)
Lemma numpy_pipeline :
  @SpecialAnglesNumpy.pipeline num _ = SpecialAngles.pipeline.
Proof. reflexivity. Qed.

Lemma numpy_example_block :
  @SpecialAnglesNumpy.example_block num _ = SpecialAngles.example_block.
Proof. reflexivity. Qed.

Lemma script_around_run viz s :
  script_around viz s =
  match main_trace (of_int 1) s with
  | (inl e, s1) => (Err e, s1)
  | (inr _, s1) =>
      match viz s1 with
      | (inl e, s2) => (Err e, s2)
      | (inr _, s2) =>
          match example_trace (nl +:+ "Example 1 (r = ") (of_int 2) s2 with
          | (inl e, s3) => (Err e, s3)
          | (inr _, s3) =>
              example_trace (nl +:+ "Example 2 (r = ") (of_int 3) s3
          end
      end
  end.
Proof.
  unfold script_around.
  rewrite bind_run, pipeline_run.
  destruct (main_trace (of_int 1) s) as [[e|[]] s1]; [reflexivity|].
  rewrite bind_run.
  destruct (viz s1) as [[e|[]] s2]; [reflexivity|].
  rewrite bind_run, example_run.
  destruct (example_trace _ (of_int 2) s2) as [[e|[]] s3]; [reflexivity|].
  apply example_run.
Qed.

Lemma plotly_script s :
  SpecialAngles.script s = script_around SpecialAngles.visualization s.
Proof.
  unfold SpecialAngles.script, script_around, SpecialAngles.pipeline.
  rewrite <- !bind_assoc_run. reflexivity.
Qed.

Lemma numpy_script s :
  SpecialAnglesNumpy.script s
  = script_around SpecialAnglesNumpy.visualization s.
Proof.
  unfold SpecialAnglesNumpy.script, script_around, SpecialAngles.pipeline.
  rewrite <- !bind_assoc_run. reflexivity.
Qed.

(** Each figure is drawn from the numbers of the first run and prints
    nothing. *)
Lemma plotly_visualization s v d :
  globals s !! "r" = Some (VNum v) ->
  globals s !! "diag_length" = Some (VNum d) ->
  SpecialAngles.visualization s
  = (Ok tt, mkInterp (<["fig" := VObj]> (globals s)) (stdout s)).
Proof.
  intros Er Ed. unfold SpecialAngles.visualization.
  rewrite bind_run, (var_run _ _ _ Er). cbv beta iota delta [Ok].
  rewrite bind_run, (var_run _ _ _ Ed). reflexivity.
Qed.

Lemma numpy_visualization s v d rad :
  globals s !! "r" = Some (VNum v) ->
  globals s !! "diag_length" = Some (VNum d) ->
  globals s !! "sphere_radius" = Some (VNum rad) ->
  exists s', SpecialAnglesNumpy.visualization s = (Ok tt, s')
             /\ stdout s' = stdout s
             /\ globals s' !! "x" = Some VObj.
Proof.
  intros Er Ed Erad. unfold SpecialAnglesNumpy.visualization.
  exec. unfold var. cbn [globals stdout].
  repeat (rewrite lookup_insert_ne by done). rewrite Er.
  cbn [globals stdout].
  repeat (rewrite lookup_insert_ne by done). rewrite Ed.
  cbn [globals stdout].
  repeat (rewrite lookup_insert_ne by done). rewrite Erad.
  eexists. split; [reflexivity|]. cbn [globals stdout]. split; [reflexivity|].
  repeat (rewrite lookup_insert_ne by done). apply lookup_insert_eq.
Qed.

(** Both module bodies end the same way and print the same text. *)
Lemma scripts_same_output s :
  fst (SpecialAngles.script s) = fst (SpecialAnglesNumpy.script s) /\
  stdout (snd (SpecialAngles.script s))
  = stdout (snd (SpecialAnglesNumpy.script s)).
Proof.
  rewrite plotly_script, numpy_script, !script_around_run.
  destruct (main_trace (of_int 1) s) as [[e|[]] s1] eqn:E1; [by split|].
  apply main_trace_ok in E1 as (d & rad & vol & xv & idv & _ & G & _).
  rewrite (plotly_visualization s1 (of_int 1) d)
    by (rewrite G; lookup_global).
  destruct (numpy_visualization s1 (of_int 1) d rad) as (s2 & -> & O2 & _);
    try (rewrite G; lookup_global).
  set (s2' := mkInterp _ _).
  assert (O : stdout s2' = stdout s2) by (symmetry; exact O2).
  destruct (example_trace_frame (nl +:+ "Example 1 (r = ") s2' s2 (of_int 2) O)
    as [F3 O3].
  destruct (example_trace _ (of_int 2) s2') as [[e|[]] s3'],
           (example_trace _ (of_int 2) s2) as [[e'|[]] s3];
    cbn [fst snd] in F3, O3; try discriminate.
  - by split.
  - apply (example_trace_frame _ s3' s3 (of_int 3) O3).
Qed.
End Scripts.

(** ** The scripts, run

    In the recording arithmetic both module bodies run to their end; the
    expressions bound are those of the source text. *)

Section RecordedRuns.
Import Recorded.

Example recorded_evaluate :
  SpecialAngles.evaluate (Lit 1)
  = Ok (mkResult expr (diag_length_expr (Lit 1)) (sphere_radius_expr (Lit 1))
          (sphere_volume_expr (Lit 1)) (sin_pi_3_expr (Lit 1))).
Proof. vm_compute. reflexivity. Qed.

Example recorded_scripts_finish :
  fst (SpecialAngles.script (num := expr) fresh) = Ok tt /\
  fst (SpecialAnglesNumpy.script (num := expr) fresh) = Ok tt.
Proof. vm_compute. split; reflexivity. Qed.

Example recorded_scripts_print_14_lines :
  length (stdout (snd (SpecialAngles.script (num := expr) fresh))) = 14%nat /\
  length (stdout (snd (SpecialAnglesNumpy.script (num := expr) fresh)))
  = 14%nat.
Proof. vm_compute. split; reflexivity. Qed.

(** The last report of either script is the one for [r = 3]. *)
Example recorded_last_line :
  last (stdout (snd (SpecialAnglesNumpy.script (num := expr) fresh)))
  = Some (Fixed4 "sin(π/3) = " (sin_pi_3_expr (Lit 3))).
Proof. vm_compute. reflexivity. Qed.

(** The Matplotlib figure leaves [x] bound to an array; the next example
    block binds it to a number again before reading it. *)
Example recorded_numpy_x :
  globals (snd ((SpecialAnglesNumpy.pipeline (Lit 1);;
                 SpecialAnglesNumpy.visualization) fresh)) !! "x"
  = Some VObj /\
  read (snd (SpecialAnglesNumpy.script (num := expr) fresh)) "x"
  = Some (Mul (Lit 3) (Sin (Div Pi (Lit 3)))).
Proof. vm_compute. split; reflexivity. Qed.
End RecordedRuns.

(** ** Exact real arithmetic: constants *)

Section Constants.
Open Scope R_scope.

Lemma PI_bounds : 3.1415926 < PI < 3.1415927.
Proof.
  generalize (PI_2_3_7_ineq 4).
  unfold sum_f_R0, tg_alt, PI_2_3_7_tg, Ratan_seq.
  cbn [Nat.mul Nat.add Rpow_def.pow].
  rewrite !INR_IZR_INZ.
  cbv [Z.of_nat Pos.of_succ_nat Pos.succ].
  intros [L U]. split; lra.
Qed.

Lemma sqrt3_sqr : sqrt 3 * sqrt 3 = 3.
Proof. apply sqrt_def; lra. Qed.

Lemma sqrt3_bounds : 1.7320508 < sqrt 3 < 1.7320509.
Proof.
  pose proof sqrt3_sqr as E.
  pose proof (sqrt_pos 3) as P.
  split; nra.
Qed.

Lemma PI_sqrt3_bounds : 5.4413979 < PI * sqrt 3 < 5.4413985.
Proof.
  pose proof PI_bounds as [P1 P2].
  pose proof sqrt3_bounds as [S1 S2].
  split; nra.
Qed.

Lemma sqrt2_sqr : sqrt 2 * sqrt 2 = 2.
Proof. apply sqrt_def; lra. Qed.

(** The radicand of line 27 is [3 r^2]. *)
Lemma radicand (r : R) : r ^ 2 + (sqrt 2 * r) ^ 2 = 3 * r ^ 2.
Proof.
  pose proof sqrt2_sqr as E.
  replace ((sqrt 2 * r) ^ 2) with ((sqrt 2 * sqrt 2) * r ^ 2) by ring.
  rewrite E. ring.
Qed.

Lemma diagonal_abs (r : R) :
  sqrt (r ^ 2 + (sqrt 2 * r) ^ 2) = Rabs r * sqrt 3.
Proof.
  rewrite radicand, sqrt_mult by (try apply pow2_ge_0; lra).
  replace (r ^ 2) with (Rsqr r) by (unfold Rsqr; ring).
  rewrite sqrt_Rsqr_abs. ring.
Qed.

Lemma diagonal_pos (r : R) :
  0 < r -> sqrt (r ^ 2 + (sqrt 2 * r) ^ 2) = r * sqrt 3.
Proof. intros H. rewrite diagonal_abs, Rabs_pos_eq; lra. Qed.

Lemma diagonal_neg (r : R) :
  r < 0 -> sqrt (r ^ 2 + (sqrt 2 * r) ^ 2) = - r * sqrt 3.
Proof. intros H. rewrite diagonal_abs, Rabs_left; lra. Qed.
End Constants.

(** ** Exact real arithmetic: the evaluator *)

Section RealEvaluator.
Open Scope R_scope.

Lemma R_truediv_nonzero (a b : R) : b <> 0 -> R_truediv a b = Ok (a / b).
Proof.
  intros H. unfold R_truediv.
  destruct (Req_dec_T b 0); [contradiction | reflexivity].
Qed.

Lemma R_truediv_zero (a : R) : R_truediv a 0 = Err ZeroDivisionError.
Proof.
  unfold R_truediv.
  destruct (Req_dec_T 0 0); [reflexivity | contradiction].
Qed.

Lemma R_sqrt_nonneg (a : R) : 0 <= a -> R_sqrt a = Ok (sqrt a).
Proof.
  intros H. unfold R_sqrt.
  destruct (Rlt_dec a 0); [lra | reflexivity].
Qed.

(** Unfold the operations of [RealArith], or only the sequencing of
    results. *)
Ltac real_ops :=
  cbv beta iota delta
    [mbind result_bind bind_result of_int f_add f_mul f_truediv f_pow
     m_sqrt m_sin m_pi RealArith Ok Err].

Ltac next := cbv beta iota delta [mbind result_bind bind_result Ok].

Lemma real_diag_length_of (r : R) :
  Evaluator.diag_length_of r = Ok (sqrt (r ^ 2 + (sqrt 2 * r) ^ 2)).
Proof.
  unfold Evaluator.diag_length_of. real_ops.
  rewrite (R_sqrt_nonneg 2) by lra. real_ops.
  apply R_sqrt_nonneg. rewrite radicand. pose proof (pow2_ge_0 r). lra.
Qed.

Lemma real_sphere_radius_of (d : R) :
  Evaluator.sphere_radius_of d = Ok (d / 2).
Proof. apply R_truediv_nonzero. lra. Qed.

Lemma real_sphere_volume_of (rad : R) :
  Evaluator.sphere_volume_of rad = Ok (4 / 3 * PI * rad ^ 3).
Proof.
  unfold Evaluator.sphere_volume_of. real_ops.
  rewrite R_truediv_nonzero by lra. reflexivity.
Qed.

Lemma real_x_of (r : R) : Evaluator.x_of r = Ok (r * sin (PI / 3)).
Proof.
  unfold Evaluator.x_of. real_ops.
  rewrite R_truediv_nonzero by lra. reflexivity.
Qed.

Lemma real_identity_of (vol xv : R) :
  xv <> 0 -> Evaluator.identity_of vol xv = Ok (vol / (PI * xv ^ 3)).
Proof.
  intros H. unfold Evaluator.identity_of. real_ops.
  apply R_truediv_nonzero.
  apply Rmult_integral_contrapositive_currified.
  - pose proof PI_RGT_0. lra.
  - apply pow_nonzero, H.
Qed.

Lemma real_identity_of_zero (vol : R) :
  Evaluator.identity_of vol 0 = Err ZeroDivisionError.
Proof.
  unfold Evaluator.identity_of. real_ops.
  replace (PI * 0 ^ 3) with 0 by ring.
  apply R_truediv_zero.
Qed.

Lemma sin_PI3_pos : 0 < sin (PI / 3).
Proof. rewrite sin_PI3. pose proof sqrt3_bounds. lra. Qed.

(** The evaluator away from zero. *)
Lemma real_evaluate (r : R) :
  r <> 0 ->
  let d := sqrt (r ^ 2 + (sqrt 2 * r) ^ 2) in
  let vol := 4 / 3 * PI * (d / 2) ^ 3 in
  Evaluator.evaluate r
  = Ok (mkResult R d (d / 2) vol (vol / (PI * (r * sin (PI / 3)) ^ 3))).
Proof.
  intros H d vol. unfold Evaluator.evaluate.
  rewrite real_diag_length_of; fold d; next.
  rewrite real_sphere_radius_of; next.
  rewrite real_sphere_volume_of; fold vol; next.
  rewrite real_x_of; next.
  rewrite real_identity_of; [reflexivity|].
  pose proof sin_PI3_pos. nra.
Qed.

(** The evaluator at zero. *)
Lemma real_evaluate_zero : Evaluator.evaluate 0 = Err ZeroDivisionError.
Proof.
  unfold Evaluator.evaluate.
  rewrite real_diag_length_of; next.
  rewrite real_sphere_radius_of; next.
  rewrite real_sphere_volume_of; next.
  rewrite real_x_of; next.
  rewrite Rmult_0_l, real_identity_of_zero. reflexivity.
Qed.

(** Closed forms on either side of zero. *)
Lemma volume_closed (r : R) :
  4 / 3 * PI * (r * sqrt 3 / 2) ^ 3 = r ^ 3 * (PI * sqrt 3) / 2.
Proof.
  pose proof sqrt3_sqr as E.
  replace ((r * sqrt 3 / 2) ^ 3)
    with (r ^ 3 * (sqrt 3 * sqrt 3) * sqrt 3 / 8) by field.
  rewrite E. field.
Qed.

Lemma real_evaluate_pos (r : R) :
  0 < r ->
  Evaluator.evaluate r
  = Ok (mkResult R (r * sqrt 3) (r * sqrt 3 / 2)
          (4 / 3 * PI * (r * sqrt 3 / 2) ^ 3) (4 / 3)).
Proof.
  intros H. rewrite real_evaluate by lra. cbv zeta.
  rewrite diagonal_pos by exact H. rewrite sin_PI3.
  do 2 f_equal.
  pose proof PI_RGT_0. pose proof sqrt3_bounds.
  field. repeat split; lra.
Qed.

Lemma real_evaluate_neg (r : R) :
  r < 0 ->
  Evaluator.evaluate r
  = Ok (mkResult R (- r * sqrt 3) (- r * sqrt 3 / 2)
          (4 / 3 * PI * (- r * sqrt 3 / 2) ^ 3) (- (4 / 3))).
Proof.
  intros H. rewrite real_evaluate by lra. cbv zeta.
  rewrite diagonal_neg by exact H. rewrite sin_PI3.
  do 2 f_equal.
  pose proof PI_RGT_0. pose proof sqrt3_bounds.
  field. repeat split; lra.
Qed.
End RealEvaluator.

Section RealRuns.
Open Scope R_scope.

Lemma real_steps_pos (r : R) :
  0 < r ->
  Evaluator.diag_length_of r = Ok (r * sqrt 3) /\
  Evaluator.sphere_radius_of (r * sqrt 3) = Ok (r * sqrt 3 / 2) /\
  Evaluator.sphere_volume_of (r * sqrt 3 / 2)
  = Ok (4 / 3 * PI * (r * sqrt 3 / 2) ^ 3) /\
  Evaluator.x_of r = Ok (r * sqrt 3 / 2) /\
  Evaluator.identity_of (4 / 3 * PI * (r * sqrt 3 / 2) ^ 3) (r * sqrt 3 / 2)
  = Ok (4 / 3).
Proof.
  intros H. pose proof PI_RGT_0. pose proof sqrt3_bounds.
  repeat split.
  - rewrite real_diag_length_of, diagonal_pos by exact H. reflexivity.
  - apply real_sphere_radius_of.
  - apply real_sphere_volume_of.
  - rewrite real_x_of, sin_PI3. f_equal. field.
  - rewrite real_identity_of by nra. f_equal. field. split; nra.
Qed.

Lemma real_pipeline_pos (r : R) (s : interp R) :
  0 < r ->
  SpecialAngles.pipeline r s
  = (Ok tt,
     mkInterp
       (globals (assigned r (r * sqrt 3) (r * sqrt 3 / 2)
                   (4 / 3 * PI * (r * sqrt 3 / 2) ^ 3)
                   (r * sqrt 3 / 2) (4 / 3) s))
       (stdout s ++ report (positive_result r))).
Proof.
  intros H. destruct (real_steps_pos r H) as (E1 & E2 & E3 & E4 & E5).
  rewrite pipeline_run. apply main_trace_finished; assumption.
Qed.

Lemma real_example_pos header (r : R) (s : interp R) :
  0 < r ->
  example_trace header r s
  = (Ok tt,
     mkInterp
       (globals (assigned r (r * sqrt 3) (r * sqrt 3 / 2)
                   (4 / 3 * PI * (r * sqrt 3 / 2) ^ 3)
                   (r * sqrt 3 / 2) (4 / 3) s))
       (stdout s ++ Plain header r "):" :: report (positive_result r))).
Proof.
  intros H. destruct (real_steps_pos r H) as (E1 & E2 & E3 & E4 & E5).
  apply example_trace_finished; assumption.
Qed.

(** What [special_angles.py] prints. *)
Lemma real_script_output :
  fst (SpecialAngles.script (num := R) fresh) = Ok tt /\
  stdout (snd (SpecialAngles.script (num := R) fresh))
  = (report (positive_result 1)
     ++ Plain (nl +:+ "Example 1 (r = ") 2 "):"
     :: report (positive_result 2)
     ++ Plain (nl +:+ "Example 2 (r = ") 3 "):"
     :: report (positive_result 3))%list.
Proof.
  rewrite plotly_script, script_around_run.
  change (of_int 1) with 1; change (of_int 2) with 2;
    change (of_int 3) with 3.
  rewrite <- pipeline_run, real_pipeline_pos by lra.
  erewrite plotly_visualization by lookup_global.
  rewrite real_example_pos by lra.
  rewrite real_example_pos by lra.
  cbn [fst snd stdout]. split; [reflexivity|].
  rewrite <- !app_assoc. reflexivity.
Qed.
End RealRuns.

Section Claims.
Open Scope R_scope.

Lemma both_evaluate_pos (r : R) :
  0 < r ->
  SpecialAngles.evaluate r = Ok (positive_result r) /\
  SpecialAnglesNumpy.evaluate r = Ok (positive_result r).
Proof.
  intros H. rewrite evaluate_pure, numpy_evaluate_pure.
  split; apply real_evaluate_pos, H.
Qed.

Lemma approx_bounds (places : nat) (a b : R) :
  approx places a b <->
  b - / 2 * / 10 ^ places <= a <= b + / 2 * / 10 ^ places.
Proof.
  unfold approx, Rabs.
  destruct (Rcase_abs (a - b)); split; intros H; lra.
Qed.

Lemma approx4_bounds (a b : R) :
  approx 4 a b <-> b - 0.00005 <= a <= b + 0.00005.
Proof.
  rewrite approx_bounds.
  replace (/ 2 * / 10 ^ 4) with 0.00005 by (simpl; lra).
  reflexivity.
Qed.

(** C1 (the code at [r = 1]): both files bind [sin_pi_3] to 4/3, which is
    not the sine of [PI / 3] to four decimals, nor 0.8660, and line 41
    prints that value after the label [sin(π/3) = ]. *)
Theorem C1_identity_value_is_not_the_sine :
  exists e : EvaluationResult R,
    SpecialAngles.evaluate 1 = Ok e /\
    SpecialAnglesNumpy.evaluate 1 = Ok e /\
    identityValue e = 4 / 3 /\
    ~ approx 4 (identityValue e) (sin (PI / 3)) /\
    ~ approx 4 (identityValue e) 0.8660 /\
    last (stdout (snd (SpecialAngles.pipeline 1 fresh)))
    = Some (Fixed4 "sin(π/3) = " (4 / 3)).
Proof.
  destruct (both_evaluate_pos 1) as [E1 E2]; [lra|].
  exists (positive_result 1). repeat split; try assumption.
  - cbn [identityValue positive_result]. rewrite approx4_bounds, sin_PI3.
    pose proof sqrt3_bounds. lra.
  - cbn [identityValue positive_result]. rewrite approx4_bounds. lra.
  - rewrite real_pipeline_pos by lra. reflexivity.
Qed.

(** C2, as stated, fails: at [r = 3] the volume does not show as
    73.4594. *)
Lemma C2_volume_at_3_is_not_73_4594 :
  exists e : EvaluationResult R,
    SpecialAngles.evaluate 3 = Ok e /\
    ~ approx 4 (sphereVolume e) 73.4594.
Proof.
  destruct (both_evaluate_pos 3) as [E1 _]; [lra|].
  exists (positive_result 3). split; [exact E1|].
  cbn [sphereVolume positive_result].
  rewrite approx4_bounds, volume_closed.
  pose proof PI_sqrt3_bounds. set (p := PI * sqrt 3) in *. lra.
Qed.

(** C2 (amended): the script runs to its end and prints the three
    reports; for [r = 1], [2], [3] the diagonal, radius and volume show as
    1.7321, 0.8660, 2.7207; 3.4641, 1.7321, 21.7656; 5.1962, 2.5981,
    73.4589. *)
Theorem C2_concrete_scenarios :
  exists e1 e2 e3 : EvaluationResult R,
    (SpecialAngles.evaluate 1 = Ok e1 /\
     SpecialAngles.evaluate 2 = Ok e2 /\
     SpecialAngles.evaluate 3 = Ok e3) /\
    (SpecialAnglesNumpy.evaluate 1 = Ok e1 /\
     SpecialAnglesNumpy.evaluate 2 = Ok e2 /\
     SpecialAnglesNumpy.evaluate 3 = Ok e3) /\
    fst (SpecialAngles.script (num := R) fresh) = Ok tt /\
    stdout (snd (SpecialAngles.script (num := R) fresh))
    = (report e1
       ++ Plain (nl +:+ "Example 1 (r = ") 2 "):" :: report e2
       ++ Plain (nl +:+ "Example 2 (r = ") 3 "):" :: report e3)%list /\
    (approx 4 (diagonalLength e1) 1.7321 /\
     approx 4 (sphereRadius e1) 0.8660 /\
     approx 4 (sphereVolume e1) 2.7207) /\
    (approx 4 (diagonalLength e2) 3.4641 /\
     approx 4 (sphereRadius e2) 1.7321 /\
     approx 4 (sphereVolume e2) 21.7656) /\
    (approx 4 (diagonalLength e3) 5.1962 /\
     approx 4 (sphereRadius e3) 2.5981 /\
     approx 4 (sphereVolume e3) 73.4589).
Proof.
  destruct (both_evaluate_pos 1) as [P1 N1]; [lra|].
  destruct (both_evaluate_pos 2) as [P2 N2]; [lra|].
  destruct (both_evaluate_pos 3) as [P3 N3]; [lra|].
  destruct real_script_output as [F O].
  exists (positive_result 1), (positive_result 2), (positive_result 3).
  do 4 (split; [tauto|]).
  cbn [diagonalLength sphereRadius sphereVolume positive_result].
  rewrite !approx4_bounds, !volume_closed.
  pose proof PI_sqrt3_bounds. pose proof sqrt3_bounds.
  set (p := PI * sqrt 3) in *.
  repeat split; lra.
Qed.

Lemma both_evaluate_neg (r : R) :
  r < 0 ->
  let e := mkResult R (- r * sqrt 3) (- r * sqrt 3 / 2)
             (4 / 3 * PI * (- r * sqrt 3 / 2) ^ 3) (- (4 / 3)) in
  SpecialAngles.evaluate r = Ok e /\ SpecialAnglesNumpy.evaluate r = Ok e.
Proof.
  intros H e. rewrite evaluate_pure, numpy_evaluate_pure.
  split; apply real_evaluate_neg, H.
Qed.

Lemma both_evaluate_zero :
  SpecialAngles.evaluate 0 = Err ZeroDivisionError /\
  SpecialAnglesNumpy.evaluate 0 = Err ZeroDivisionError.
Proof.
  rewrite evaluate_pure, numpy_evaluate_pure.
  split; apply real_evaluate_zero.
Qed.

(** C3, as stated, fails: at [r = -1] the evaluator returns a result and
    raises nothing. *)
Lemma C3_negative_input_is_accepted :
  -1 <= 0 /\
  (exists e : EvaluationResult R, SpecialAngles.evaluate (-1) = Ok e) /\
  SpecialAngles.evaluate (-1) <> Err (UserError "InvalidInputError").
Proof.
  destruct (both_evaluate_neg (-1)) as [E _]; [lra|].
  split; [lra|]. split; [eexists; exact E|].
  rewrite E. discriminate.
Qed.

Lemma read_x_pos (r : R) (s : interp R) :
  0 < r ->
  read (snd (SpecialAngles.pipeline r s)) "x" = Some (r * sqrt 3 / 2).
Proof.
  intros H. rewrite real_pipeline_pos by exact H.
  unfold read, assigned, bound; cbn [snd globals].
  rewrite lookup_insert_ne by done. rewrite lookup_insert_eq. reflexivity.
Qed.

(** C7: for positive [r1], [r2] the identity value is 4/3 at both, hence
    the same; the global [x] left by the run is the sphere radius. *)
Theorem C7_identity_value_is_four_thirds (r1 r2 : R) :
  0 < r1 -> 0 < r2 ->
  exists e1 e2 : EvaluationResult R,
    (SpecialAngles.evaluate r1 = Ok e1 /\
     SpecialAnglesNumpy.evaluate r1 = Ok e1) /\
    (SpecialAngles.evaluate r2 = Ok e2 /\
     SpecialAnglesNumpy.evaluate r2 = Ok e2) /\
    identityValue e1 = 4 / 3 /\
    identityValue e2 = 4 / 3 /\
    identityValue e1 = identityValue e2 /\
    read (snd (SpecialAngles.pipeline r1 fresh)) "x" = Some (sphereRadius e1) /\
    read (snd (SpecialAngles.pipeline r2 fresh)) "x" = Some (sphereRadius e2).
Proof.
  intros H1 H2.
  exists (positive_result r1), (positive_result r2).
  split; [exact (both_evaluate_pos r1 H1)|].
  split; [exact (both_evaluate_pos r2 H2)|].
  cbn [identityValue sphereRadius positive_result].
  do 3 (split; [reflexivity|]).
  split; apply read_x_pos; assumption.
Qed.

Lemma C7_identity_value_is_four_thirds_witness :
  0 < 1 /\ 0 < 5 /\
  exists e1 e2 : EvaluationResult R,
    (SpecialAngles.evaluate 1 = Ok e1 /\
     SpecialAnglesNumpy.evaluate 1 = Ok e1) /\
    (SpecialAngles.evaluate 5 = Ok e2 /\
     SpecialAnglesNumpy.evaluate 5 = Ok e2) /\
    identityValue e1 = 4 / 3 /\
    identityValue e2 = 4 / 3 /\
    identityValue e1 = identityValue e2 /\
    read (snd (SpecialAngles.pipeline 1 fresh)) "x" = Some (sphereRadius e1) /\
    read (snd (SpecialAngles.pipeline 5 fresh)) "x" = Some (sphereRadius e2).
Proof.
  assert (H1 : 0 < 1) by lra. assert (H2 : 0 < 5) by lra.
  split; [exact H1|]. split; [exact H2|].
  exact (C7_identity_value_is_four_thirds 1 5 H1 H2).
Defined.
Lemma real_steps_zero :
  Evaluator.diag_length_of 0 = Ok 0 /\
  Evaluator.sphere_radius_of 0 = Ok 0 /\
  Evaluator.sphere_volume_of 0 = Ok 0 /\
  Evaluator.x_of 0 = Ok 0 /\
  Evaluator.identity_of 0 0 = Err ZeroDivisionError.
Proof.
  repeat split.
  - rewrite real_diag_length_of, diagonal_abs, Rabs_R0. f_equal. ring.
  - rewrite real_sphere_radius_of. f_equal. field.
  - rewrite real_sphere_volume_of. f_equal. ring.
  - rewrite real_x_of. f_equal. ring.
  - apply real_identity_of_zero.
Qed.

(** C8: at [r = 0] the diagonal, the radius and the volume are computed
    and printed as 0, [x] is 0, and line 40 raises [ZeroDivisionError];
    nothing catches it, [sin_pi_3] stays unbound and the exit status is
    1. *)
Theorem C8_zero_input :
  exists s : interp R,
    SpecialAngles.pipeline 0 fresh = (Err ZeroDivisionError, s) /\
    SpecialAnglesNumpy.pipeline 0 fresh = (Err ZeroDivisionError, s) /\
    exit_status (fst (SpecialAngles.pipeline (num := R) 0 fresh)) = 1%Z /\
    read s "diag_length" = Some 0 /\
    read s "sphere_radius" = Some 0 /\
    read s "sphere_volume" = Some 0 /\
    read s "x" = Some 0 /\
    read s "sin_pi_3" = None /\
    stdout s = [ Fixed4 "Diagonal length of the cube: " 0;
                 Fixed4 "Radius of the sphere: " 0;
                 Fixed4 "Volume of the sphere: " 0 ] /\
    SpecialAngles.evaluate 0 = Err ZeroDivisionError /\
    SpecialAnglesNumpy.evaluate 0 = Err ZeroDivisionError.
Proof.
  destruct real_steps_zero as (E1 & E2 & E3 & E4 & E5).
  assert (Run : exists s : interp R,
             SpecialAngles.pipeline 0 fresh = (Err ZeroDivisionError, s) /\
             globals s
             = <["x" := VNum 0]> (<["sphere_volume" := VNum 0]>
                 (<["sphere_radius" := VNum 0]> (<["diag_length" := VNum 0]>
                    (<["r" := VNum 0]> ∅)))) /\
             stdout s = [ Fixed4 "Diagonal length of the cube: " 0;
                          Fixed4 "Radius of the sphere: " 0;
                          Fixed4 "Volume of the sphere: " 0 ]).
  { rewrite pipeline_run. unfold main_trace.
    known E1. known E2. known E3. known E4. rewrite E5.
    eexists. split; [reflexivity|]. split; reflexivity. }
  destruct Run as (s & R0 & G & O).
  exists s. split; [exact R0|]. split; [exact R0|].
  split; [rewrite R0; reflexivity|].
  unfold read. rewrite G.
  repeat (split;
          [repeat (rewrite lookup_insert_ne by done);
           first [rewrite lookup_insert_eq | rewrite lookup_empty];
           reflexivity |]).
  split; [exact O | exact both_evaluate_zero].
Qed.
End Claims.

(** ** The two files, and the state a run starts in

    These statements hold for every arithmetic, so also for IEEE
    doubles with the platform's [math] library. *)

Section Hyperproperties.
Context {num : Type} `{!Arith num}.

(** In every arithmetic the radius of a result is one division of its
    diagonal by 2, and its volume is line 35 evaluated at its radius. *)
Lemma radius_is_one_division (v : num) (e : EvaluationResult num) :
  SpecialAngles.evaluate v = Ok e ->
  f_truediv (diagonalLength e) (of_int 2) = Ok (sphereRadius e).
Proof.
  rewrite evaluate_pure. unfold Evaluator.evaluate, Evaluator.sphere_radius_of.
  cbv beta iota delta [mbind result_bind bind_result Ok Err].
  destruct (Evaluator.diag_length_of v) as [ex|d]; [discriminate|].
  destruct (f_truediv d (of_int 2)) as [ex|rad] eqn:E; [discriminate|].
  destruct (Evaluator.sphere_volume_of rad) as [ex|vol]; [discriminate|].
  destruct (Evaluator.x_of v) as [ex|xv]; [discriminate|].
  destruct (Evaluator.identity_of vol xv) as [ex|idv]; [discriminate|].
  intros [= <-]. exact E.
Qed.

Lemma volume_is_line_35 (v : num) (e : EvaluationResult num) :
  SpecialAngles.evaluate v = Ok e ->
  Evaluator.sphere_volume_of (sphereRadius e) = Ok (sphereVolume e).
Proof.
  rewrite evaluate_pure. unfold Evaluator.evaluate.
  cbv beta iota delta [mbind result_bind bind_result Ok Err].
  destruct (Evaluator.diag_length_of v) as [ex|d]; [discriminate|].
  destruct (Evaluator.sphere_radius_of d) as [ex|rad]; [discriminate|].
  destruct (Evaluator.sphere_volume_of rad) as [ex|vol] eqn:E; [discriminate|].
  destruct (Evaluator.x_of v) as [ex|xv]; [discriminate|].
  destruct (Evaluator.identity_of vol xv) as [ex|idv]; [discriminate|].
  intros [= <-]. exact E.
Qed.

(** C9: both files compute the same result on every input, from every
    interpreter state; this result is that of the extracted evaluator;
    and both module bodies end the same way and print the same text. *)
Theorem C9_same_pipeline :
  (forall (s : interp num) (v : num),
     SpecialAngles.evaluate_from s v = SpecialAnglesNumpy.evaluate_from s v) /\
  (forall v : num,
     SpecialAngles.evaluate v = SpecialAnglesNumpy.evaluate v) /\
  (forall v : num,
     SpecialAngles.evaluate v = Evaluator.evaluate v /\
     SpecialAnglesNumpy.evaluate v = Evaluator.evaluate v) /\
  (forall s : interp num,
     fst (SpecialAngles.script s) = fst (SpecialAnglesNumpy.script s) /\
     stdout (snd (SpecialAngles.script s))
     = stdout (snd (SpecialAnglesNumpy.script s))).
Proof.
  split; [intros s v; rewrite evaluate_from_pure, numpy_evaluate_from_pure;
          reflexivity|].
  split; [intros v; rewrite evaluate_pure, numpy_evaluate_pure;
          reflexivity|].
  split; [intros v; split; [apply evaluate_pure | apply numpy_evaluate_pure]|].
  exact scripts_same_output.
Qed.

(** C10: the result of a run depends on the input alone: two runs on the
    same [v] agree whatever the interpreter states they start in, and a
    second run in the state the first one leaves repeats its result. *)
Theorem C10_deterministic_and_stateless (s1 s2 : interp num) (v : num) :
  SpecialAngles.evaluate_from s1 v = SpecialAngles.evaluate_from s2 v /\
  SpecialAnglesNumpy.evaluate_from s1 v
  = SpecialAnglesNumpy.evaluate_from s2 v /\
  SpecialAngles.evaluate_from (snd (SpecialAngles.pipeline v s1)) v
  = SpecialAngles.evaluate_from s1 v /\
  SpecialAnglesNumpy.evaluate_from (snd (SpecialAnglesNumpy.pipeline v s1)) v
  = SpecialAnglesNumpy.evaluate_from s1 v.
Proof.
  rewrite ?(evaluate_from_pure s1), ?(evaluate_from_pure s2),
    ?(evaluate_from_pure (snd (SpecialAngles.pipeline v s1))),
    ?numpy_evaluate_from_pure.
  repeat split; reflexivity.
Qed.
End Hyperproperties.

(** * Rounding, overflow and underflow *)

(** ** What a run has bound, and where its exception comes from *)

Section Reads.
Context {num : Type} `{!Arith num}.
Implicit Types (s : interp num) (v d rad vol : num) (ex : exn).

Ltac read_global :=
  unfold read, printed, bound; cbn [snd globals];
  repeat (rewrite lookup_insert_ne by done);
  rewrite lookup_insert_eq; reflexivity.

(** A value that lines 27-35 have bound stays bound to the end of the
    run, whether a later line raises or not. *)
Lemma main_trace_diag_length s v d :
  Evaluator.diag_length_of v = Ok d ->
  read (snd (main_trace v s)) "diag_length" = Some d.
Proof.
  intros E1. unfold main_trace. known E1.
  destruct (Evaluator.sphere_radius_of d) as [e|rad]; [read_global|].
  destruct (Evaluator.sphere_volume_of rad) as [e|vol]; [read_global|].
  destruct (Evaluator.x_of v) as [e|xv]; [read_global|].
  destruct (Evaluator.identity_of vol xv) as [e|idv]; read_global.
Qed.

Lemma main_trace_sphere_radius s v d rad :
  Evaluator.diag_length_of v = Ok d ->
  Evaluator.sphere_radius_of d = Ok rad ->
  read (snd (main_trace v s)) "sphere_radius" = Some rad.
Proof.
  intros E1 E2. unfold main_trace. known E1. known E2.
  destruct (Evaluator.sphere_volume_of rad) as [e|vol]; [read_global|].
  destruct (Evaluator.x_of v) as [e|xv]; [read_global|].
  destruct (Evaluator.identity_of vol xv) as [e|idv]; read_global.
Qed.

Lemma main_trace_sphere_volume s v d rad vol :
  Evaluator.diag_length_of v = Ok d ->
  Evaluator.sphere_radius_of d = Ok rad ->
  Evaluator.sphere_volume_of rad = Ok vol ->
  read (snd (main_trace v s)) "sphere_volume" = Some vol.
Proof.
  intros E1 E2 E3. unfold main_trace. known E1. known E2. known E3.
  destruct (Evaluator.x_of v) as [e|xv]; [read_global|].
  destruct (Evaluator.identity_of vol xv) as [e|idv]; read_global.
Qed.

(** A division that raises at line 31 ends the run with its
    exception. *)
Lemma main_trace_sphere_radius_raises s v d ex :
  Evaluator.diag_length_of v = Ok d ->
  Evaluator.sphere_radius_of d = Err ex ->
  fst (main_trace v s) = Err ex.
Proof.
  intros E1 E2. unfold main_trace. known E1. rewrite E2. reflexivity.
Qed.

(** The parts of a result, step by step. *)
Lemma evaluate_steps v (e : EvaluationResult num) :
  Evaluator.evaluate v = Ok e ->
  Evaluator.diag_length_of v = Ok (diagonalLength e) /\
  Evaluator.sphere_radius_of (diagonalLength e) = Ok (sphereRadius e) /\
  Evaluator.sphere_volume_of (sphereRadius e) = Ok (sphereVolume e) /\
  exists xv : num,
    Evaluator.x_of v = Ok xv /\
    Evaluator.identity_of (sphereVolume e) xv = Ok (identityValue e).
Proof.
  unfold Evaluator.evaluate.
  cbv beta iota delta [mbind result_bind bind_result Ok Err].
  destruct (Evaluator.diag_length_of v) as [ex|d] eqn:E1; [discriminate|].
  destruct (Evaluator.sphere_radius_of d) as [ex|rad] eqn:E2; [discriminate|].
  destruct (Evaluator.sphere_volume_of rad) as [ex|vol] eqn:E3;
    [discriminate|].
  destruct (Evaluator.x_of v) as [ex|xv] eqn:E4; [discriminate|].
  destruct (Evaluator.identity_of vol xv) as [ex|idv] eqn:E5; [discriminate|].
  intros [= <-]. cbn [diagonalLength sphereRadius sphereVolume identityValue].
  split; [reflexivity|]. split; [exact E2|]. split; [exact E3|].
  exists xv. split; [reflexivity | exact E5].
Qed.

Lemma pow_raises (a : num) (n : nat) ex :
  f_pow a n = Err ex -> raised_by_arithmetic ex.
Proof. intros E. left. exists a, n. exact E. Qed.

Lemma sqrt_raises (a : num) ex :
  m_sqrt a = Err ex -> raised_by_arithmetic ex.
Proof. intros E. right; left. exists a. exact E. Qed.

Lemma truediv_raises (a b : num) ex :
  f_truediv a b = Err ex -> raised_by_arithmetic ex.
Proof. intros E. right; right; left. exists a, b. exact E. Qed.

Lemma sin_raises (a : num) ex :
  m_sin a = Err ex -> raised_by_arithmetic ex.
Proof. intros E. right; right; right. exists a. exact E. Qed.

Ltac raised :=
  cbv beta iota delta [mbind result_bind bind_result Ok Err];
  repeat match goal with
    | |- context [match ?t with inl _ => _ | inr _ => _ end] =>
        let E := fresh "E" in
        destruct t as [?|?] eqn:E;
        [intros [= <-];
         first [ exact (pow_raises _ _ _ E) | exact (sqrt_raises _ _ E)
               | exact (truediv_raises _ _ _ E) | exact (sin_raises _ _ E) ]
        | cbv beta iota delta [Ok Err] ]
    end;
  try discriminate.

Lemma diag_length_of_raises v ex :
  Evaluator.diag_length_of v = Err ex -> raised_by_arithmetic ex.
Proof.
  unfold Evaluator.diag_length_of. raised.
  apply sqrt_raises.
Qed.

Lemma sphere_volume_of_raises rad ex :
  Evaluator.sphere_volume_of rad = Err ex -> raised_by_arithmetic ex.
Proof. unfold Evaluator.sphere_volume_of. raised. Qed.

Lemma x_of_raises v ex :
  Evaluator.x_of v = Err ex -> raised_by_arithmetic ex.
Proof. unfold Evaluator.x_of. raised. Qed.

Lemma identity_of_raises vol xv ex :
  Evaluator.identity_of vol xv = Err ex -> raised_by_arithmetic ex.
Proof.
  unfold Evaluator.identity_of. raised.
  apply truediv_raises.
Qed.

Lemma evaluate_raises v ex :
  Evaluator.evaluate v = Err ex -> raised_by_arithmetic ex.
Proof.
  unfold Evaluator.evaluate.
  cbv beta iota delta [mbind result_bind bind_result Ok Err].
  destruct (Evaluator.diag_length_of v) as [e|d] eqn:E1;
    [intros [= <-]; exact (diag_length_of_raises _ _ E1)|].
  destruct (Evaluator.sphere_radius_of d) as [e|rad] eqn:E2;
    [intros [= <-]; exact (truediv_raises _ _ _ E2)|].
  destruct (Evaluator.sphere_volume_of rad) as [e|vol] eqn:E3;
    [intros [= <-]; exact (sphere_volume_of_raises _ _ E3)|].
  destruct (Evaluator.x_of v) as [e|xv] eqn:E4;
    [intros [= <-]; exact (x_of_raises _ _ E4)|].
  destruct (Evaluator.identity_of vol xv) as [e|idv] eqn:E5;
    [intros [= <-]; exact (identity_of_raises _ _ _ E5)|].
  discriminate.
Qed.

(** The exception that ends a run of lines 27-41 is the one the
    evaluator returns. *)
Lemma main_trace_raises s v ex :
  fst (main_trace v s) = Err ex -> Evaluator.evaluate v = Err ex.
Proof.
  unfold main_trace, Evaluator.evaluate.
  cbv beta iota delta [mbind result_bind bind_result Ok Err].
  destruct (Evaluator.diag_length_of v) as [e|d]; [cbn [fst]; intros [= <-]; reflexivity|].
  destruct (Evaluator.sphere_radius_of d) as [e|rad]; [cbn [fst]; intros [= <-]; reflexivity|].
  destruct (Evaluator.sphere_volume_of rad) as [e|vol]; [cbn [fst]; intros [= <-]; reflexivity|].
  destruct (Evaluator.x_of v) as [e|xv]; [cbn [fst]; intros [= <-]; reflexivity|].
  destruct (Evaluator.identity_of vol xv) as [e|idv];
    [cbn [fst]; intros [= <-]; reflexivity|].
  discriminate.
Qed.
End Reads.

(** ** Arithmetic with a bounded relative error: propagation *)

Section Near.
Open Scope R_scope.
Variable eps : R.
Hypothesis eps_nonneg : 0 <= eps.
Hypothesis eps_small : eps <= 1 / 10 ^ 11.

Lemma factor_ge_1 (k : nat) : 1 <= (1 + 2 * eps) ^ k.
Proof. apply pow_R1_Rle. lra. Qed.

Lemma near_pos (k : nat) (X x : R) : near eps k X x -> 0 < x.
Proof.
  intros (P & L & _). pose proof (factor_ge_1 k) as Q.
  destruct (Rle_or_lt x 0) as [N|N]; [|exact N].
  assert (x * (1 + 2 * eps) ^ k <= 0).
  { replace 0 with (0 * (1 + 2 * eps) ^ k) by ring.
    apply Rmult_le_compat_r; lra. }
  lra.
Qed.

Lemma near_exact (X : R) : 0 < X -> near eps 0 X X.
Proof. intros P. unfold near. simpl. lra. Qed.

Lemma near_mono (j k : nat) (X x : R) :
  (j <= k)%nat -> near eps j X x -> near eps k X x.
Proof.
  intros L N. pose proof (near_pos _ _ _ N) as Px.
  destruct N as (P & A & B).
  assert (M : (1 + 2 * eps) ^ j <= (1 + 2 * eps) ^ k)
    by (apply Rle_pow; [lra | exact L]).
  split; [exact P|]. split.
  - apply Rle_trans with (1 := A). apply Rmult_le_compat_l; lra.
  - apply Rle_trans with (1 := B). apply Rmult_le_compat_l; lra.
Qed.

(** One more rounding. *)
Lemma near_round (k : nat) (X y x : R) :
  near eps k X y -> rel_close eps x y -> near eps (S k) X x.
Proof.
  intros N C. pose proof (near_pos _ _ _ N) as Py.
  destruct N as (P & A & B). pose proof (factor_ge_1 k) as Q.
  unfold rel_close in C. rewrite (Rabs_pos_eq y) in C by lra.
  assert (Lo : y * (1 - eps) <= x /\ x <= y * (1 + eps)).
  { unfold Rabs in C. destruct (Rcase_abs (x - y)); lra. }
  destruct Lo as [Lo Hi].
  assert (S1 : y <= x * (1 + 2 * eps)).
  { apply Rle_trans with (y * (1 - eps) * (1 + 2 * eps)).
    - assert (0 <= y * (eps * (1 - 2 * eps))).
      { apply Rmult_le_pos; [lra|]. apply Rmult_le_pos; lra. }
      lra.
    - apply Rmult_le_compat_r; lra. }
  unfold near. split; [exact P|]. cbn [pow]. split.
  - apply Rle_trans with (1 := A).
    replace (x * ((1 + 2 * eps) * (1 + 2 * eps) ^ k))
      with (x * (1 + 2 * eps) * (1 + 2 * eps) ^ k) by ring.
    apply Rmult_le_compat_r; lra.
  - apply Rle_trans with (y * (1 + 2 * eps)).
    + apply Rle_trans with (1 := Hi). apply Rmult_le_compat_l; lra.
    + replace (X * ((1 + 2 * eps) * (1 + 2 * eps) ^ k))
        with (X * (1 + 2 * eps) ^ k * (1 + 2 * eps)) by ring.
      apply Rmult_le_compat_r; lra.
Qed.

Lemma near_mul (j k : nat) (X x Y y : R) :
  near eps j X x -> near eps k Y y -> near eps (j + k) (X * Y) (x * y).
Proof.
  intros N1 N2.
  pose proof (near_pos _ _ _ N1) as Px. pose proof (near_pos _ _ _ N2) as Py.
  destruct N1 as (P1 & A1 & B1). destruct N2 as (P2 & A2 & B2).
  pose proof (factor_ge_1 j) as Q1. pose proof (factor_ge_1 k) as Q2.
  unfold near. rewrite pow_add.
  split; [apply Rmult_lt_0_compat; assumption|]. split.
  - replace (x * y * ((1 + 2 * eps) ^ j * (1 + 2 * eps) ^ k))
      with (x * (1 + 2 * eps) ^ j * (y * (1 + 2 * eps) ^ k)) by ring.
    apply Rmult_le_compat; lra.
  - replace (X * Y * ((1 + 2 * eps) ^ j * (1 + 2 * eps) ^ k))
      with (X * (1 + 2 * eps) ^ j * (Y * (1 + 2 * eps) ^ k)) by ring.
    apply Rmult_le_compat; lra.
Qed.

Lemma near_inv (k : nat) (Y y : R) :
  near eps k Y y -> near eps k (/ Y) (/ y).
Proof.
  intros N. pose proof (near_pos _ _ _ N) as Py.
  destruct N as (P & A & B). pose proof (factor_ge_1 k) as Q.
  unfold near. set (q := (1 + 2 * eps) ^ k) in *.
  split; [apply Rinv_0_lt_compat, P|]. split.
  - apply Rmult_le_reg_r with (Y * y); [apply Rmult_lt_0_compat; lra|].
    replace (/ Y * (Y * y)) with y by (field; lra).
    replace (/ y * q * (Y * y)) with (Y * q) by (field; lra).
    exact B.
  - apply Rmult_le_reg_r with (Y * y); [apply Rmult_lt_0_compat; lra|].
    replace (/ y * (Y * y)) with Y by (field; lra).
    replace (/ Y * q * (Y * y)) with (y * q) by (field; lra).
    exact A.
Qed.

Lemma near_div (j k : nat) (X x Y y : R) :
  near eps j X x -> near eps k Y y -> near eps (j + k) (X / Y) (x / y).
Proof. intros N1 N2. apply near_mul; [exact N1 | apply near_inv, N2]. Qed.

Lemma near_pow (n k : nat) (X x : R) :
  near eps k X x -> near eps (n * k) (X ^ n) (x ^ n).
Proof.
  intros N. induction n as [|n IH].
  - cbn [Nat.mul pow]. apply near_exact. lra.
  - cbn [Nat.mul pow]. apply near_mul; assumption.
Qed.

Lemma near_add (k : nat) (X x Y y : R) :
  near eps k X x -> near eps k Y y -> near eps k (X + Y) (x + y).
Proof.
  intros (P1 & A1 & B1) (P2 & A2 & B2).
  split; [lra|]. split; lra.
Qed.

Lemma near_sqrt (k : nat) (X x : R) :
  near eps k X x -> near eps k (sqrt X) (sqrt x).
Proof.
  intros N. pose proof (near_pos _ _ _ N) as Px.
  destruct N as (P & A & B). pose proof (factor_ge_1 k) as Q.
  unfold near. set (q := (1 + 2 * eps) ^ k) in *.
  assert (Sq : sqrt q <= q).
  { rewrite <- (sqrt_square q) at 2 by lra.
    apply sqrt_le_1_alt. nra. }
  assert (Pq : 0 <= sqrt q) by apply sqrt_pos.
  split; [apply sqrt_lt_R0, P|]. split.
  - apply Rle_trans with (sqrt (x * q)); [apply sqrt_le_1_alt, A|].
    rewrite sqrt_mult by lra.
    apply Rmult_le_compat_l; [apply sqrt_pos | exact Sq].
  - apply Rle_trans with (sqrt (X * q)); [apply sqrt_le_1_alt, B|].
    rewrite sqrt_mult by lra.
    apply Rmult_le_compat_l; [apply sqrt_pos | exact Sq].
Qed.

Lemma factor_bound (k : nat) :
  4 * INR k * eps <= 1 -> (1 + 2 * eps) ^ k <= 1 + 4 * INR k * eps.
Proof.
  induction k as [|k IH]; intros H.
  - simpl. lra.
  - rewrite S_INR in *. cbn [pow].
    assert (Pk : 0 <= INR k) by apply pos_INR.
    assert (H' : 4 * INR k * eps <= 1) by nra.
    specialize (IH H').
    apply Rle_trans with ((1 + 2 * eps) * (1 + 4 * INR k * eps)).
    + apply Rmult_le_compat_l; lra.
    + assert (0 <= 2 * eps * (1 - 4 * INR k * eps))
        by (apply Rmult_le_pos; lra).
      lra.
Qed.

(** Up to twenty roundings stay within a relative distance of 1e-9. *)
Lemma near_tolerance (k : nat) (X x : R) :
  (k <= 20)%nat -> near eps k X x -> rel_close (1 / 10 ^ 9) x X.
Proof.
  intros K N. apply (near_mono k 20) in N; [|exact K].
  pose proof (near_pos _ _ _ N) as Px. destruct N as (P & A & B).
  assert (Q : (1 + 2 * eps) ^ 20 <= 1 + 1 / 10 ^ 9).
  { apply Rle_trans with (1 + 4 * INR 20 * eps).
    - apply factor_bound. simpl INR. lra.
    - simpl INR. lra. }
  set (q := (1 + 2 * eps) ^ 20) in *.
  assert (Hi : x <= X * (1 + 1 / 10 ^ 9)).
  { apply Rle_trans with (1 := B). apply Rmult_le_compat_l; lra. }
  assert (Lo : X <= x * (1 + 1 / 10 ^ 9)).
  { apply Rle_trans with (1 := A). apply Rmult_le_compat_l; lra. }
  unfold rel_close. rewrite (Rabs_pos_eq X) by lra.
  unfold Rabs. destruct (Rcase_abs (x - X)); lra.
Qed.
End Near.

(** ** Arithmetic with a bounded relative error: lines 27-35 *)

Section AccurateRuns.
Open Scope R_scope.
Variable eps : R.
Variable A : Arith R.
Hypothesis eps_nonneg : 0 <= eps.
Hypothesis eps_small : eps <= 1 / 10 ^ 11.
Hypothesis accurate : Accurate eps A.

Ltac sequence := cbv beta iota delta [mbind result_bind bind_result Ok].

Lemma accurate_int_near (z : Z) :
  (0 < z)%Z -> near eps 1 (IZR z) (@of_int R A z).
Proof.
  intros P. apply near_round with (y := IZR z); try assumption.
  - apply near_exact; [assumption.. |]. apply IZR_lt in P. exact P.
  - apply accurate_of_int, accurate.
Qed.

(** Line 27 with nine roundings. *)
Lemma accurate_diag_length_of (r : R) :
  0 < r ->
  exists d : R,
    @Evaluator.diag_length_of R A r = Ok d /\
    near eps 9 (r * sqrt 3) d.
Proof.
  intros P. unfold Evaluator.diag_length_of.
  destruct (accurate_pow eps A accurate r 2) as (a & Ea & Ca).
  rewrite Ea; sequence.
  pose proof (accurate_int_near 2 eq_refl) as N2.
  destruct (accurate_sqrt eps A accurate (of_int 2)) as (s2 & Es & Cs).
  { apply Rlt_le, (near_pos eps) with (k := 1%nat) (X := 2); assumption. }
  rewrite Es; sequence.
  assert (Ns : near eps 2 (sqrt 2) s2).
  { apply near_round with (y := sqrt (of_int 2)); try assumption.
    apply near_sqrt; assumption. }
  assert (Nm : near eps 3 (sqrt 2 * r) (f_mul s2 r)).
  { apply near_round with (y := s2 * r); try assumption.
    - apply (near_mul eps) with (j := 2%nat) (k := 0%nat); try assumption.
      apply near_exact; assumption.
    - apply accurate_mul, accurate. }
  destruct (accurate_pow eps A accurate (f_mul s2 r) 2) as (b & Eb & Cb).
  rewrite Eb; sequence.
  assert (Nb : near eps 7 ((sqrt 2 * r) ^ 2) b).
  { apply near_round with (y := f_mul s2 r ^ 2); try assumption.
    apply (near_pow eps) with (n := 2%nat) (k := 3%nat); assumption. }
  assert (Na : near eps 7 (r ^ 2) a).
  { apply (near_mono eps) with (j := 1%nat); [assumption | lia |].
    apply near_round with (y := r ^ 2); try assumption.
    apply near_exact; try assumption. apply pow_lt, P. }
  assert (Nc : near eps 8 (r ^ 2 + (sqrt 2 * r) ^ 2) (f_add a b)).
  { apply near_round with (y := a + b); try assumption.
    - apply near_add; assumption.
    - apply accurate_add, accurate. }
  destruct (accurate_sqrt eps A accurate (f_add a b)) as (d & Ed & Cd).
  { apply Rlt_le, (near_pos eps) with (k := 8%nat)
      (X := r ^ 2 + (sqrt 2 * r) ^ 2); assumption. }
  exists d. split; [exact Ed|].
  rewrite <- (diagonal_pos r P).
  
  apply near_round with (y := sqrt (f_add a b)); try assumption.
  apply near_sqrt; assumption.
Qed.

(** Line 31 on a positive diagonal. *)
Lemma accurate_sphere_radius_of (d : R) :
  0 < d ->
  exists rad : R,
    @Evaluator.sphere_radius_of R A d = Ok rad /\ 0 < rad /\
    rel_close eps rad (d / of_int 2).
Proof.
  intros P. unfold Evaluator.sphere_radius_of.
  pose proof (accurate_int_near 2 eq_refl) as N2.
  assert (P2 : 0 < @of_int R A 2)
    by (apply (near_pos eps) with (k := 1%nat) (X := 2); assumption).
  destruct (accurate_truediv eps A accurate d (of_int 2)) as (q & Eq & Cq);
    [lra|].
  exists q. split; [exact Eq|]. split; [|exact Cq].
  apply (near_pos eps) with (k := 2%nat) (X := d / 2); try assumption.
  apply near_round with (y := d / of_int 2); try assumption.
  apply (near_div eps) with (j := 0%nat) (k := 1%nat); try assumption.
  apply near_exact; assumption.
Qed.

(** Line 35 with seven roundings. *)
Lemma accurate_sphere_volume_of (rad : R) :
  0 < rad ->
  exists vol : R,
    @Evaluator.sphere_volume_of R A rad = Ok vol /\
    near eps 7 (4 / 3 * PI * rad ^ 3) vol.
Proof.
  intros P. unfold Evaluator.sphere_volume_of.
  pose proof (accurate_int_near 4 eq_refl) as N4.
  pose proof (accurate_int_near 3 eq_refl) as N3.
  assert (P3 : 0 < @of_int R A 3)
    by (apply (near_pos eps) with (k := 1%nat) (X := 3); assumption).
  destruct (accurate_truediv eps A accurate (of_int 4) (of_int 3))
    as (c & Ec & Cc); [lra|].
  rewrite Ec; sequence.
  destruct (accurate_pow eps A accurate rad 3) as (p & Ep & Cp).
  rewrite Ep; sequence.
  exists (f_mul (f_mul c m_pi) p). split; [reflexivity|].
  assert (Nc : near eps 3 (4 / 3) c).
  { apply near_round with (y := of_int 4 / of_int 3); try assumption.
    apply (near_div eps) with (j := 1%nat) (k := 1%nat); try assumption. }
  assert (Npi : near eps 1 PI m_pi).
  { apply near_round with (y := PI); try assumption.
    - apply near_exact; try assumption. apply PI_RGT_0.
    - apply accurate_pi, accurate. }
  assert (Ncp : near eps 5 (4 / 3 * PI) (f_mul c m_pi)).
  { apply near_round with (y := c * m_pi); try assumption.
    - apply (near_mul eps) with (j := 3%nat) (k := 1%nat); try assumption.
    - apply accurate_mul, accurate. }
  assert (Np : near eps 1 (rad ^ 3) p).
  { apply near_round with (y := rad ^ 3); try assumption.
    apply near_exact; try assumption. apply pow_lt, P. }
  apply near_round with (y := f_mul c m_pi * p); try assumption.
  - apply (near_mul eps) with (j := 5%nat) (k := 1%nat); try assumption.
  - apply accurate_mul, accurate.
Qed.
End AccurateRuns.

Section AccurateInstances.
Open Scope R_scope.

(** Rounding every exact result within [eps] gives an accurate
    arithmetic. *)
Lemma rounded_accurate (eps : R) (rnd : R -> R) :
  (forall x : R, rel_close eps (rnd x) x) -> Accurate eps (RoundedArith rnd).
Proof.
  intros H. split; cbn [of_int f_add f_mul f_truediv f_pow m_sqrt m_pi
                        RoundedArith].
  - intros z. apply H.
  - intros a b. apply H.
  - intros a b. apply H.
  - intros a b N. destruct (Req_dec_T b 0); [contradiction|].
    eexists. split; [reflexivity | apply H].
  - intros a n. eexists. split; [reflexivity | apply H].
  - intros a P. destruct (Rlt_dec a 0); [lra|].
    eexists. split; [reflexivity | apply H].
  - apply H.
Qed.

Lemma slightly_up_close (x : R) : rel_close (1 / 10 ^ 11) (slightly_up x) x.
Proof.
  unfold rel_close, slightly_up.
  replace (x * (1 + 1 / 10 ^ 12) - x) with (x * (1 / 10 ^ 12)) by ring.
  rewrite Rabs_mult, (Rabs_pos_eq (1 / 10 ^ 12)) by lra.
  pose proof (Rabs_pos x). nra.
Qed.

Lemma slightly_up_accurate :
  Accurate (1 / 10 ^ 11) (RoundedArith slightly_up).
Proof. apply rounded_accurate, slightly_up_close. Qed.

Lemma rounding_by_identity : RoundedArith (fun x => x) = RealArith.
Proof. reflexivity. Qed.
End AccurateInstances.

(** ** Binary64: the values of the doubles *)

Section TightConstants.
Open Scope R_scope.

Lemma sqrt3_tight : 1.7320508075 < sqrt 3 < 1.7320508076.
Proof.
  pose proof sqrt3_sqr as E.
  pose proof (sqrt_pos 3) as P.
  split; nra.
Qed.

Lemma PI_tight : 3.1415926535 < PI < 3.1415926536.
Proof.
  generalize (PI_2_3_7_ineq 7).
  unfold sum_f_R0, tg_alt, PI_2_3_7_tg, Ratan_seq.
  cbn [Nat.mul Nat.add Rpow_def.pow].
  rewrite !INR_IZR_INZ.
  cbv [Z.of_nat Pos.of_succ_nat Pos.succ].
  intros [L U]. split; lra.
Qed.
End TightConstants.

Section FloatValues.
Open Scope R_scope.

Lemma F2R_finite (a : float) (s : bool) (m : positive) (e : Z) :
  Prim2SF a = S754_finite s m e ->
  F2R a = (if s then - IZR (Zpos m) else IZR (Zpos m)) * two_power e.
Proof. intros E. unfold F2R. rewrite E. reflexivity. Qed.

Lemma F2R_zero : F2R 0%float = 0.
Proof. reflexivity. Qed.
End FloatValues.

(** The real number a double stands for, as a quotient of integers. *)
Ltac float_value a :=
  let v := eval vm_compute in (Prim2SF a) in
  lazymatch v with
  | S754_finite ?s ?m ?e =>
      rewrite (F2R_finite a s m e) by (vm_compute; reflexivity);
      cbv beta iota delta [two_power];
      repeat match goal with
        | |- context [IZR (2 ^ Zpos ?p)] =>
            let w := eval vm_compute in (2 ^ Zpos p)%Z in
            change (2 ^ Zpos p)%Z with w
        end
  end.

(** ** Binary64 runs *)

Section FloatRuns.
Open Scope R_scope.

(** The argument of [math.sin] is the tabulated one. *)
Example float_sin_argument :
  f_truediv (m_pi (num := float)) (of_int 3) = Ok F_pi_3 /\
  forall r : float, Evaluator.x_of r = Ok (r * 0x1.bb67ae8584caap-1)%float.
Proof. split; [vm_compute; reflexivity | intros r; reflexivity]. Qed.

(** Lines 24-41 and the two example blocks in binary64: the doubles
    that CPython binds, in hexadecimal notation. *)
Lemma float_evaluate_1 :
  SpecialAngles.evaluate (of_int 1)
  = Ok (mkResult float 0x1.bb67ae8584cabp+0%float 0x1.bb67ae8584cabp-1%float
          0x1.5c3fddc92b2dep+1%float 0x1.5555555555557p+0%float).
Proof. vm_compute. reflexivity. Qed.

Lemma float_evaluate_2 :
  SpecialAngles.evaluate (of_int 2)
  = Ok (mkResult float 0x1.bb67ae8584cabp+1%float 0x1.bb67ae8584cabp+0%float
          0x1.5c3fddc92b2dep+4%float 0x1.5555555555557p+0%float).
Proof. vm_compute. reflexivity. Qed.

Lemma float_evaluate_3 :
  SpecialAngles.evaluate (of_int 3)
  = Ok (mkResult float 0x1.4c8dc2e423980p+2%float 0x1.4c8dc2e423980p+1%float
          0x1.25d5e321bc6ebp+6%float 0x1.5555555555556p+0%float).
Proof. vm_compute. reflexivity. Qed.

Example float_script_finishes :
  fst (SpecialAngles.script (num := float) fresh) = Ok tt /\
  fst (SpecialAnglesNumpy.script (num := float) fresh) = Ok tt.
Proof. vm_compute. split; reflexivity. Qed.

(** At [r = 1e103] line 35 raises [OverflowError] after two lines of
    output. *)
Lemma float_run_1e103 :
  SpecialAngles.pipeline F_1e103 fresh
  = (Err OverflowError,
     mkInterp (<["sphere_radius" := VNum 0x1.eeed953e6201bp+341%float]>
                (<["diag_length" := VNum 0x1.eeed953e6201bp+342%float]>
                  (<["r" := VNum F_1e103]> ∅)))
       [Fixed4 "Diagonal length of the cube: " 0x1.eeed953e6201bp+342%float;
        Fixed4 "Radius of the sphere: " 0x1.eeed953e6201bp+341%float]).
Proof. vm_compute. reflexivity. Qed.

(** At [r = 1e-200] both squares of line 27 underflow: the diagonal, the
    radius and the volume are 0.0, and line 40 divides 0.0 by 0.0. *)
Lemma float_run_1e_200 :
  SpecialAngles.pipeline F_1e_200 fresh
  = (Err ZeroDivisionError,
     mkInterp (<["x" := VNum 0x1.536793539fd32p-665%float]>
                (<["sphere_volume" := VNum 0%float]>
                  (<["sphere_radius" := VNum 0%float]>
                    (<["diag_length" := VNum 0%float]>
                      (<["r" := VNum F_1e_200]> ∅)))))
       [Fixed4 "Diagonal length of the cube: " 0%float;
        Fixed4 "Radius of the sphere: " 0%float;
        Fixed4 "Volume of the sphere: " 0%float]).
Proof. vm_compute. reflexivity. Qed.

(** At [r = 1e200] line 27 itself raises [OverflowError]. *)
Example float_diag_length_1e200 :
  Evaluator.diag_length_of F_1e200 = Err OverflowError /\
  SpecialAngles.pipeline F_1e200 fresh
  = (Err OverflowError, bound "r" F_1e200 fresh).
Proof. vm_compute. split; reflexivity. Qed.

(** At [r = 1e-107] the cube of the radius is a subnormal number. *)
Lemma float_evaluate_1e_107 :
  SpecialAngles.evaluate F_1e_107
  = Ok (mkResult float 0x1.456c71742f153p-355%float
          0x1.456c71742f153p-356%float 0x0.0000000000225p-1022%float
          0x1.55204f88b2f39p+0%float).
Proof. vm_compute. reflexivity. Qed.

(** Negative sides. *)
Lemma float_evaluate_minus_1 :
  SpecialAngles.evaluate (of_int (-1))
  = Ok (mkResult float 0x1.bb67ae8584cabp+0%float 0x1.bb67ae8584cabp-1%float
          0x1.5c3fddc92b2dep+1%float (-0x1.5555555555557p+0)%float).
Proof. vm_compute. reflexivity. Qed.

Lemma float_evaluate_0 :
  SpecialAngles.evaluate (of_int 0)
  = Err (A := EvaluationResult float) ZeroDivisionError.
Proof. vm_compute. reflexivity. Qed.

(** A negative side close to zero, and a large one. *)
Example float_negative_extremes :
  SpecialAngles.evaluate (- F_1e_200)%float = Err ZeroDivisionError /\
  SpecialAngles.evaluate (- F_1e200)%float = Err OverflowError.
Proof. vm_compute. split; reflexivity. Qed.

Lemma close_bounds (tol a b : R) :
  0 < b -> b * (1 - tol) <= a <= b * (1 + tol) -> rel_close tol a b.
Proof.
  intros P [L U]. unfold rel_close. rewrite (Rabs_pos_eq b) by lra.
  unfold Rabs. destruct (Rcase_abs (a - b)); lra.
Qed.

Lemma not_close_below (tol a b : R) :
  0 < b -> a < b * (1 - tol) -> ~ rel_close tol a b.
Proof.
  intros P L. unfold rel_close. rewrite (Rabs_pos_eq b) by lra.
  unfold Rabs. destruct (Rcase_abs (a - b)); lra.
Qed.

Ltac float_close :=
  apply close_bounds;
  repeat match goal with
    | |- context [F2R ?a] => float_value a
    end;
  pose proof sqrt3_tight as [? ?]; pose proof PI_tight as [? ?];
  [ | split ]; try lra.

Lemma float_diagonals_close :
  rel_close (1 / 10 ^ 9) (F2R 0x1.bb67ae8584cabp+0%float) (1 * sqrt 3) /\
  rel_close (1 / 10 ^ 9) (F2R 0x1.bb67ae8584cabp+1%float) (2 * sqrt 3) /\
  rel_close (1 / 10 ^ 9) (F2R 0x1.4c8dc2e423980p+2%float) (3 * sqrt 3).
Proof. repeat split; float_close. Qed.

Lemma float_volumes_close :
  rel_close (1 / 10 ^ 9) (F2R 0x1.5c3fddc92b2dep+1%float)
    (4 / 3 * PI * F2R 0x1.bb67ae8584cabp-1%float ^ 3) /\
  rel_close (1 / 10 ^ 9) (F2R 0x1.5c3fddc92b2dep+4%float)
    (4 / 3 * PI * F2R 0x1.bb67ae8584cabp+0%float ^ 3) /\
  rel_close (1 / 10 ^ 9) (F2R 0x1.25d5e321bc6ebp+6%float)
    (4 / 3 * PI * F2R 0x1.4c8dc2e423980p+1%float ^ 3).
Proof. repeat split; float_close. Qed.

Lemma float_volume_1e_107_not_close :
  ~ rel_close (1 / 10 ^ 9) (F2R 0x0.0000000000225p-1022%float)
      (4 / 3 * PI * F2R 0x1.456c71742f153p-356%float ^ 3).
Proof.
  apply not_close_below;
    repeat match goal with
      | |- context [F2R ?a] => float_value a
      end;
    pose proof PI_bounds as [? ?]; lra.
Qed.
End FloatRuns.

Section FloatErrors.

(** Binary64 operations raise the three built-in exceptions only. *)
Lemma float_raises (ex : exn) :
  raised_by_arithmetic (num := float) ex -> builtin_arithmetic_error ex.
Proof.
  unfold raised_by_arithmetic, builtin_arithmetic_error.
  cbn [f_pow m_sqrt f_truediv m_sin FloatArith].
  unfold F_pow, F_sqrt, F_truediv, F_sin.
  intros [(a & n & E) | [(a & E) | [(a & b & E) | (a & E)]]].
  - destruct (_ && _); [|discriminate]. cbv [Err] in E. right; left. congruence.
  - destruct (PrimFloat.ltb _ _); [|discriminate].
    cbv [Err] in E. right; right. congruence.
  - destruct (PrimFloat.eqb _ _); [|discriminate].
    cbv [Err] in E. left. congruence.
  - destruct (PrimFloat.is_infinity _); [|discriminate].
    cbv [Err] in E. right; right. congruence.
Qed.

Lemma real_raises (ex : exn) :
  raised_by_arithmetic (num := R) ex -> builtin_arithmetic_error ex.
Proof.
  unfold raised_by_arithmetic, builtin_arithmetic_error.
  cbn [f_pow m_sqrt f_truediv m_sin RealArith].
  unfold R_sqrt, R_truediv.
  intros [(a & n & E) | [(a & E) | [(a & b & E) | (a & E)]]];
    try discriminate.
  - destruct (Rlt_dec _ _); [|discriminate].
    cbv [Err] in E. right; right. congruence.
  - destruct (Req_dec_T _ _); [|discriminate].
    cbv [Err] in E. left. congruence.
Qed.

Lemma builtin_is_no_user_error (ex : exn) (class_name : string) :
  builtin_arithmetic_error ex -> ex <> UserError class_name.
Proof. intros [-> | [-> | ->]]; discriminate. Qed.
End FloatErrors.

(** ** The input guard *)

Section Guard.
Open Scope R_scope.

(** C3 (amended): neither file tests [r].  In every arithmetic, an
    exception that ends a run of lines 27-41, from any interpreter
    state and on any input, is one that [**], [math.sqrt], [/] or
    [math.sin] has raised; in binary64, and over the real numbers, that
    is a [ZeroDivisionError], an [OverflowError] or a [ValueError], never
    [InvalidInputError].  At [r = -1] both files return a result, and at
    [r = 0] they raise [ZeroDivisionError]. *)
Theorem C3_nonpositive_input :
  (forall (num : Type) (A : Arith num) (s : interp num) (v : num) (ex : exn),
     fst (SpecialAngles.pipeline v s) = Err ex \/
     fst (SpecialAnglesNumpy.pipeline v s) = Err ex \/
     SpecialAngles.evaluate v = Err ex \/
     SpecialAnglesNumpy.evaluate v = Err ex ->
     raised_by_arithmetic ex) /\
  (forall (r : float) (ex : exn),
     SpecialAngles.evaluate r = Err ex \/
     SpecialAnglesNumpy.evaluate r = Err ex ->
     builtin_arithmetic_error ex /\ ex <> UserError "InvalidInputError") /\
  (forall (r : R) (ex : exn),
     SpecialAngles.evaluate r = Err ex \/
     SpecialAnglesNumpy.evaluate r = Err ex ->
     builtin_arithmetic_error ex /\ ex <> UserError "InvalidInputError") /\
  ((exists e : EvaluationResult float,
      SpecialAngles.evaluate (of_int (-1)) = Ok e /\
      SpecialAnglesNumpy.evaluate (of_int (-1)) = Ok e) /\
   (exists e : EvaluationResult R,
      SpecialAngles.evaluate (-1) = Ok e /\
      SpecialAnglesNumpy.evaluate (-1) = Ok e)) /\
  (SpecialAngles.evaluate (of_int 0)
   = Err (A := EvaluationResult float) ZeroDivisionError /\
   SpecialAnglesNumpy.evaluate (of_int 0)
   = Err (A := EvaluationResult float) ZeroDivisionError /\
   SpecialAngles.evaluate 0 = Err ZeroDivisionError /\
   SpecialAnglesNumpy.evaluate 0 = Err ZeroDivisionError).
Proof.
  assert (G : forall (num : Type) (A : Arith num) (s : interp num) (v : num)
                (ex : exn),
             fst (SpecialAngles.pipeline v s) = Err ex \/
             fst (SpecialAnglesNumpy.pipeline v s) = Err ex \/
             SpecialAngles.evaluate v = Err ex \/
             SpecialAnglesNumpy.evaluate v = Err ex ->
             raised_by_arithmetic ex).
  { intros num A s v ex.
    change (SpecialAnglesNumpy.pipeline v s)
      with (SpecialAngles.pipeline v s).
    rewrite numpy_evaluate_pure, evaluate_pure, pipeline_run.
    intros [E | [E | [E | E]]];
      first [ exact (evaluate_raises v ex E)
            | exact (evaluate_raises v ex (main_trace_raises s v ex E)) ]. }
  split; [exact G|].
  split.
  { intros r ex E.
    assert (B : builtin_arithmetic_error ex).
    { apply float_raises, (G float _ fresh r ex). tauto. }
    split; [exact B | apply builtin_is_no_user_error, B]. }
  split.
  { intros r ex E.
    assert (B : builtin_arithmetic_error ex).
    { apply real_raises, (G R _ fresh r ex). tauto. }
    split; [exact B | apply builtin_is_no_user_error, B]. }
  split.
  { split.
    - eexists. split; [exact float_evaluate_minus_1|].
      exact float_evaluate_minus_1.
    - destruct (both_evaluate_neg (-1)) as [E1 E2]; [lra|].
      eexists. split; [exact E1 | exact E2]. }
  split; [exact float_evaluate_0|].
  split; [exact float_evaluate_0|].
  exact both_evaluate_zero.
Qed.
End Guard.

(** ** The radius, the diagonal and the volume *)

Section Lines.
Context {num : Type} `{!Arith num}.
Implicit Types (s : interp num) (v d rad vol : num) (ex : exn).

(** C5: whenever line 27 has returned the diagonal [d], line 31 binds
    [sphere_radius] to the result of one true division of [d] by 2 and
    to nothing else, or the run ends with the exception of that
    division; so the radius of every result is exactly that quotient of
    its diagonal.  This holds in both files, from every interpreter
    state and in every arithmetic, binary64 included. *)
Theorem C5_sphere_radius s v d :
  Evaluator.diag_length_of v = Ok d ->
  read (snd (SpecialAngles.pipeline v s)) "diag_length" = Some d /\
  read (snd (SpecialAnglesNumpy.pipeline v s)) "diag_length" = Some d /\
  match f_truediv d (of_int 2) with
  | inr q =>
      read (snd (SpecialAngles.pipeline v s)) "sphere_radius" = Some q /\
      read (snd (SpecialAnglesNumpy.pipeline v s)) "sphere_radius" = Some q
  | inl ex =>
      fst (SpecialAngles.pipeline v s) = Err ex /\
      fst (SpecialAnglesNumpy.pipeline v s) = Err ex
  end /\
  forall e : EvaluationResult num,
    SpecialAngles.evaluate_from s v = Ok e \/
    SpecialAnglesNumpy.evaluate_from s v = Ok e ->
    diagonalLength e = d /\
    f_truediv (diagonalLength e) (of_int 2) = Ok (sphereRadius e).
Proof.
  intros E1.
  change (SpecialAnglesNumpy.pipeline v s) with (SpecialAngles.pipeline v s).
  rewrite numpy_evaluate_from_pure, evaluate_from_pure, pipeline_run.
  split; [exact (main_trace_diag_length s v d E1)|].
  split; [exact (main_trace_diag_length s v d E1)|].
  split.
  - destruct (f_truediv d (of_int 2)) as [ex|q] eqn:E2.
    + split; exact (main_trace_sphere_radius_raises s v d ex E1 E2).
    + split; exact (main_trace_sphere_radius s v d q E1 E2).
  - intros e E.
    assert (E' : Evaluator.evaluate v = Ok e) by (destruct E; assumption).
    destruct (evaluate_steps v e E') as (S1 & S2 & _).
    rewrite E1 in S1. cbv [Ok] in S1. injection S1 as S1.
    split; [symmetry; exact S1 | exact S2].
Qed.
End Lines.

Lemma C5_sphere_radius_witness :
  Evaluator.diag_length_of (of_int 3) = Ok 0x1.4c8dc2e423980p+2%float /\
  read (snd (SpecialAngles.pipeline (of_int 3) fresh)) "sphere_radius"
  = Some 0x1.4c8dc2e423980p+1%float /\
  read (snd (SpecialAnglesNumpy.pipeline (of_int 3) fresh)) "sphere_radius"
  = Some 0x1.4c8dc2e423980p+1%float.
Proof.
  assert (H : Evaluator.diag_length_of (of_int 3)
              = Ok 0x1.4c8dc2e423980p+2%float)
    by (vm_compute; reflexivity).
  split; [exact H|].
  exact (proj1 (proj2 (proj2 (C5_sphere_radius fresh (of_int 3) _ H)))).
Defined.

Section Tolerances.
Open Scope R_scope.

(** Line 27 over the real numbers. *)
Lemma real_run_diag_length (r : R) (s : interp R) :
  0 < r ->
  SpecialAngles.diag_length (bound "r" r s)
  = (Ok tt, bound "diag_length" (r * sqrt 3) (bound "r" r s)).
Proof.
  intros P. erewrite run_diag_length by lookup_global.
  rewrite real_diag_length_of, diagonal_pos by exact P. reflexivity.
Qed.

(** C4, as stated, fails in binary64: at [r = 1e-200] both squares of
    line 27 underflow and both files bind [diag_length] to 0.0, which is
    not within any relative tolerance of [r * sqrt 3 > 0]. *)
Lemma C4_diagonal_underflows_at_1e_200 :
  0 < F2R F_1e_200 /\
  read (snd (SpecialAngles.pipeline F_1e_200 fresh)) "diag_length"
  = Some 0%float /\
  read (snd (SpecialAnglesNumpy.pipeline F_1e_200 fresh)) "diag_length"
  = Some 0%float /\
  ~ rel_close (1 / 10 ^ 9) (F2R 0%float) (F2R F_1e_200 * sqrt 3).
Proof.
  assert (P : 0 < F2R F_1e_200) by (float_value F_1e_200; lra).
  split; [exact P|].
  split; [vm_compute; reflexivity|].
  split; [vm_compute; reflexivity|].
  pose proof sqrt3_bounds as [L U].
  apply not_close_below; rewrite ?F2R_zero; nra.
Qed.

(** C4 (amended).  In every arithmetic the diagonal of a result is
    [math.sqrt (r**2 + (math.sqrt (2) * r)**2)], operation by operation.
    Over the real numbers line 27 binds [r * sqrt 3] for [r > 0].  In an
    arithmetic whose operations are accurate to a relative error of
    1e-11, for every [r > 0] both files bind a diagonal within relative
    tolerance 1e-9 of [r * sqrt 3].  In binary64 that is so on the three
    sides the scripts use, 1, 2 and 3. *)
Theorem C4_diagonal_length :
  (forall (num : Type) (A : Arith num) (s : interp num) (v : num)
          (e : EvaluationResult num),
     SpecialAngles.evaluate_from s v = Ok e \/
     SpecialAnglesNumpy.evaluate_from s v = Ok e ->
     exists a s2 b : num,
       f_pow v 2 = Ok a /\
       m_sqrt (of_int 2) = Ok s2 /\
       f_pow (f_mul s2 v) 2 = Ok b /\
       m_sqrt (f_add a b) = Ok (diagonalLength e)) /\
  (forall (r : R) (s : interp R),
     0 < r ->
     SpecialAngles.diag_length (bound "r" r s)
     = (Ok tt, bound "diag_length" (r * sqrt 3) (bound "r" r s)) /\
     SpecialAnglesNumpy.diag_length (bound "r" r s)
     = (Ok tt, bound "diag_length" (r * sqrt 3) (bound "r" r s))) /\
  (forall (eps : R) (A : Arith R) (r : R) (s : interp R),
     Accurate eps A -> 0 <= eps <= 1 / 10 ^ 11 -> 0 < r ->
     exists d : R,
       read (snd (SpecialAngles.pipeline r s)) "diag_length" = Some d /\
       read (snd (SpecialAnglesNumpy.pipeline r s)) "diag_length" = Some d /\
       rel_close (1 / 10 ^ 9) d (r * sqrt 3)) /\
  (forall k : Z,
     k = 1%Z \/ k = 2%Z \/ k = 3%Z ->
     exists e : EvaluationResult float,
       SpecialAngles.evaluate (of_int k) = Ok e /\
       SpecialAnglesNumpy.evaluate (of_int k) = Ok e /\
       rel_close (1 / 10 ^ 9) (F2R (diagonalLength e)) (IZR k * sqrt 3)).
Proof.
  split.
  { intros num A s v e.
    rewrite numpy_evaluate_from_pure, evaluate_from_pure.
    intros E.
    assert (E' : Evaluator.evaluate v = Ok e) by (destruct E; assumption).
    destruct (evaluate_steps v e E') as (S1 & _).
    revert S1. unfold Evaluator.diag_length_of.
    cbv beta iota delta [mbind result_bind bind_result Ok Err].
    destruct (f_pow v 2) as [ex|a]; [discriminate|].
    destruct (m_sqrt (of_int 2)) as [ex|s2]; [discriminate|].
    destruct (f_pow (f_mul s2 v) 2) as [ex|b] eqn:Eb; [discriminate|].
    intros S1. exists a, s2, b.
    split; [reflexivity|]. split; [reflexivity|].
    split; [exact Eb | exact S1]. }
  split.
  { intros r s P. split; apply real_run_diag_length, P. }
  split.
  { intros eps A r s Acc [E0 E1] P.
    destruct (accurate_diag_length_of eps A E0 E1 Acc r P) as (d & Ed & Nd).
    exists d.
    change (@SpecialAnglesNumpy.pipeline R A r s)
      with (@SpecialAngles.pipeline R A r s).
    rewrite pipeline_run.
    split; [exact (main_trace_diag_length s r d Ed)|].
    split; [exact (main_trace_diag_length s r d Ed)|].
    apply (near_tolerance eps E0 E1 9); [lia | exact Nd]. }
  intros k [-> | [-> | ->]].
  - eexists. split; [exact float_evaluate_1|].
    split; [exact float_evaluate_1|]. apply float_diagonals_close.
  - eexists. split; [exact float_evaluate_2|].
    split; [exact float_evaluate_2|]. apply float_diagonals_close.
  - eexists. split; [exact float_evaluate_3|].
    split; [exact float_evaluate_3|]. apply float_diagonals_close.
Qed.

(** The bound on the diagonal in an arithmetic that rounds every
    result, on the side 2. *)
Lemma C4_diagonal_length_witness :
  exists d : R,
    read (snd (@SpecialAngles.pipeline R (RoundedArith slightly_up) 2 fresh))
      "diag_length" = Some d /\
    rel_close (1 / 10 ^ 9) d (2 * sqrt 3).
Proof.
  assert (E : 0 <= 1 / 10 ^ 11 <= 1 / 10 ^ 11) by lra.
  assert (P : 0 < 2) by lra.
  destruct (proj1 (proj2 (proj2 C4_diagonal_length))
              (1 / 10 ^ 11) (RoundedArith slightly_up) 2 fresh
              slightly_up_accurate E P) as (d & R1 & _ & C).
  exists d. split; [exact R1 | exact C].
Defined.
End Tolerances.

Section Volumes.
Open Scope R_scope.

(** C6, as stated, fails in binary64.  At [r = 1e103] line 35 raises
    [OverflowError] in both files: the radius is bound and printed, a
    volume never is.  At [r = 1e-107] both files return a result whose
    volume is a subnormal number, more than 1e-9 away (relatively) from
    [(4/3) * PI * sphereRadius^3]. *)
Lemma C6_volume_fails_at_1e103_and_at_1e_107 :
  (0 < F2R F_1e103 /\
   SpecialAngles.evaluate F_1e103 = Err OverflowError /\
   SpecialAnglesNumpy.evaluate F_1e103 = Err OverflowError /\
   read (snd (SpecialAngles.pipeline F_1e103 fresh)) "sphere_radius"
   = Some 0x1.eeed953e6201bp+341%float /\
   read (snd (SpecialAngles.pipeline F_1e103 fresh)) "sphere_volume" = None) /\
  (0 < F2R F_1e_107 /\
   exists e : EvaluationResult float,
     SpecialAngles.evaluate F_1e_107 = Ok e /\
     SpecialAnglesNumpy.evaluate F_1e_107 = Ok e /\
     ~ rel_close (1 / 10 ^ 9) (F2R (sphereVolume e))
         (4 / 3 * PI * F2R (sphereRadius e) ^ 3)).
Proof.
  split.
  - split; [float_value F_1e103; lra|].
    split; [vm_compute; reflexivity|].
    split; [vm_compute; reflexivity|].
    split; vm_compute; reflexivity.
  - split; [float_value F_1e_107; lra|].
    eexists. split; [exact float_evaluate_1e_107|].
    split; [exact float_evaluate_1e_107|].
    exact float_volume_1e_107_not_close.
Qed.

(** C6 (amended).  In every arithmetic the volume of a result is
    [(4/3) * math.pi * sphere_radius**3], operation by operation, at the
    radius of that result.  In an arithmetic whose operations are
    accurate to a relative error of 1e-11, for every [r > 0] both files
    bind a radius and a volume, and the volume is within relative
    tolerance 1e-9 of the real number [(4/3) * PI * radius^3].  In
    binary64 that is so on the three sides the scripts use. *)
Theorem C6_sphere_volume :
  (forall (num : Type) (A : Arith num) (s : interp num) (v : num)
          (e : EvaluationResult num),
     SpecialAngles.evaluate_from s v = Ok e \/
     SpecialAnglesNumpy.evaluate_from s v = Ok e ->
     exists c p : num,
       f_truediv (of_int 4) (of_int 3) = Ok c /\
       f_pow (sphereRadius e) 3 = Ok p /\
       sphereVolume e = f_mul (f_mul c m_pi) p) /\
  (forall (eps : R) (A : Arith R) (r : R) (s : interp R),
     Accurate eps A -> 0 <= eps <= 1 / 10 ^ 11 -> 0 < r ->
     exists rad vol : R,
       (read (snd (SpecialAngles.pipeline r s)) "sphere_radius" = Some rad /\
        read (snd (SpecialAngles.pipeline r s)) "sphere_volume" = Some vol) /\
       (read (snd (SpecialAnglesNumpy.pipeline r s)) "sphere_radius"
        = Some rad /\
        read (snd (SpecialAnglesNumpy.pipeline r s)) "sphere_volume"
        = Some vol) /\
       rel_close (1 / 10 ^ 9) vol (4 / 3 * PI * rad ^ 3)) /\
  (forall k : Z,
     k = 1%Z \/ k = 2%Z \/ k = 3%Z ->
     exists e : EvaluationResult float,
       SpecialAngles.evaluate (of_int k) = Ok e /\
       SpecialAnglesNumpy.evaluate (of_int k) = Ok e /\
       rel_close (1 / 10 ^ 9) (F2R (sphereVolume e))
         (4 / 3 * PI * F2R (sphereRadius e) ^ 3)).
Proof.
  split.
  { intros num A s v e.
    rewrite numpy_evaluate_from_pure, evaluate_from_pure.
    intros E.
    assert (E' : Evaluator.evaluate v = Ok e) by (destruct E; assumption).
    destruct (evaluate_steps v e E') as (_ & _ & S3 & _).
    revert S3. unfold Evaluator.sphere_volume_of.
    cbv beta iota delta [mbind result_bind bind_result Ok Err].
    destruct (f_truediv (of_int 4) (of_int 3)) as [ex|c]; [discriminate|].
    destruct (f_pow (sphereRadius e) 3) as [ex|p]; [discriminate|].
    intros [= S3]. exists c, p.
    split; [reflexivity|]. split; [reflexivity|]. symmetry. exact S3. }
  split.
  { intros eps A r s Acc [E0 E1] P.
    destruct (accurate_diag_length_of eps A E0 E1 Acc r P) as (d & Ed & Nd).
    assert (Pd : 0 < d)
      by (apply (near_pos eps) with (k := 9%nat) (X := r * sqrt 3);
          assumption).
    destruct (accurate_sphere_radius_of eps A E0 E1 Acc d Pd)
      as (rad & Er & Pr & _).
    destruct (accurate_sphere_volume_of eps A E0 E1 Acc rad Pr)
      as (vol & Ev & Nv).
    exists rad, vol.
    change (@SpecialAnglesNumpy.pipeline R A r s)
      with (@SpecialAngles.pipeline R A r s).
    rewrite pipeline_run.
    pose proof (main_trace_sphere_radius s r d rad Ed Er) as R2.
    pose proof (main_trace_sphere_volume s r d rad vol Ed Er Ev) as R3.
    split; [split; assumption|]. split; [split; assumption|].
    apply (near_tolerance eps E0 E1 7); [lia | exact Nv]. }
  intros k [-> | [-> | ->]].
  - eexists. split; [exact float_evaluate_1|].
    split; [exact float_evaluate_1|]. apply float_volumes_close.
  - eexists. split; [exact float_evaluate_2|].
    split; [exact float_evaluate_2|]. apply float_volumes_close.
  - eexists. split; [exact float_evaluate_3|].
    split; [exact float_evaluate_3|]. apply float_volumes_close.
Qed.

(** The bound on the volume in an arithmetic that rounds every result,
    on the side 3. *)
Lemma C6_sphere_volume_witness :
  exists rad vol : R,
    read (snd (@SpecialAngles.pipeline R (RoundedArith slightly_up) 3 fresh))
      "sphere_radius" = Some rad /\
    read (snd (@SpecialAngles.pipeline R (RoundedArith slightly_up) 3 fresh))
      "sphere_volume" = Some vol /\
    rel_close (1 / 10 ^ 9) vol (4 / 3 * PI * rad ^ 3).
Proof.
  assert (E : 0 <= 1 / 10 ^ 11 <= 1 / 10 ^ 11) by lra.
  assert (P : 0 < 3) by lra.
  destruct (proj1 (proj2 C6_sphere_volume)
              (1 / 10 ^ 11) (RoundedArith slightly_up) 3 fresh
              slightly_up_accurate E P) as (rad & vol & [R1 R2] & _ & C).
  exists rad, vol. split; [exact R1|]. split; [exact R2 | exact C].
Defined.
End Volumes.

(** * Further properties of the two files *)

(** ** What a block binds and prints *)

Section Blocks.
Context {num : Type} `{!Arith num}.
Implicit Types (s : interp num) (v : num) (name : string).

Lemma not_assigned name :
  name ∉ assigned_names ->
  name ≠ "r" /\ name ≠ "diag_length" /\ name ≠ "sphere_radius" /\
  name ≠ "sphere_volume" /\ name ≠ "x" /\ name ≠ "sin_pi_3".
Proof.
  unfold assigned_names. rewrite !not_elem_of_cons. tauto.
Qed.

Lemma main_trace_other s v name :
  name ∉ assigned_names ->
  globals (snd (main_trace v s)) !! name = globals s !! name.
Proof.
  intros N. apply not_assigned in N as (N1 & N2 & N3 & N4 & N5 & N6).
  unfold main_trace.
  destruct (Evaluator.diag_length_of v) as [e|d];
    [unfold bound; cbn; by rewrite lookup_insert_ne|].
  destruct (Evaluator.sphere_radius_of d) as [e|rad];
    [unfold printed, bound; cbn; by rewrite !lookup_insert_ne|].
  destruct (Evaluator.sphere_volume_of rad) as [e|vol];
    [unfold printed, bound; cbn; by rewrite !lookup_insert_ne|].
  destruct (Evaluator.x_of v) as [e|xv];
    [unfold printed, bound; cbn; by rewrite !lookup_insert_ne|].
  destruct (Evaluator.identity_of vol xv) as [e|idv];
    unfold printed, bound; cbn; by rewrite !lookup_insert_ne.
Qed.

Lemma example_trace_other header s v name :
  name ∉ assigned_names ->
  globals (snd (example_trace header v s)) !! name = globals s !! name.
Proof.
  intros N. apply not_assigned in N as (N1 & N2 & N3 & N4 & N5 & N6).
  unfold example_trace.
  destruct (Evaluator.diag_length_of v) as [e|d];
    [unfold bound; cbn; by rewrite lookup_insert_ne|].
  destruct (Evaluator.sphere_radius_of d) as [e|rad];
    [unfold bound; cbn; by rewrite !lookup_insert_ne|].
  destruct (Evaluator.sphere_volume_of rad) as [e|vol];
    [unfold bound; cbn; by rewrite !lookup_insert_ne|].
  destruct (Evaluator.x_of v) as [e|xv];
    [unfold bound; cbn; by rewrite !lookup_insert_ne|].
  destruct (Evaluator.identity_of vol xv) as [e|idv];
    unfold assigned, bound; cbn; by rewrite !lookup_insert_ne.
Qed.

Lemma example_block_run header s v :
  SpecialAngles.example_block header (bound "r" v s)
  = example_trace header v s.
Proof. apply (example_run header s v). Qed.

(** X1: a run of lines 24-41, or of an example block, in either file
    leaves every global other than [r], [diag_length], [sphere_radius],
    [sphere_volume], [x] and [sin_pi_3] as it was, whether the run
    finishes or raises. *)
Theorem X1_blocks_bind_six_names header s v name :
  name ∉ assigned_names ->
  globals (snd (SpecialAngles.pipeline v s)) !! name = globals s !! name /\
  globals (snd (SpecialAnglesNumpy.pipeline v s)) !! name
  = globals s !! name /\
  globals (snd (SpecialAngles.example_block header (bound "r" v s))) !! name
  = globals s !! name /\
  globals (snd (SpecialAnglesNumpy.example_block header (bound "r" v s)))
    !! name
  = globals s !! name.
Proof.
  intros N.
  change (SpecialAnglesNumpy.pipeline v s) with (SpecialAngles.pipeline v s).
  change (SpecialAnglesNumpy.example_block header)
    with (SpecialAngles.example_block header).
  rewrite pipeline_run, example_block_run.
  repeat split;
    first [by apply main_trace_other | by apply example_trace_other].
Qed.

(** X2: lines 27-41 print each value right after computing it.  The
    text a run appends is the line of the diagonal if line 27 returns,
    then the line of the radius if line 31 returns, then the line of the
    volume if line 35 returns, then the line of [sin_pi_3] if lines 39
    and 40 return; it stops at the first operation that raises, and the
    run ends with the exception of that operation.  Both files behave
    the same. *)
Theorem X2_main_block_prints_as_it_goes s v :
  SpecialAnglesNumpy.pipeline v s = SpecialAngles.pipeline v s /\
  fst (SpecialAngles.pipeline v s)
  = match Evaluator.evaluate v with
    | inr _ => Ok tt
    | inl ex => Err ex
    end /\
  stdout (snd (SpecialAngles.pipeline v s))
  = (stdout s ++
     match Evaluator.diag_length_of v with
     | inl _ => []
     | inr d =>
         Fixed4 "Diagonal length of the cube: " d ::
         match Evaluator.sphere_radius_of d with
         | inl _ => []
         | inr rad =>
             Fixed4 "Radius of the sphere: " rad ::
             match Evaluator.sphere_volume_of rad with
             | inl _ => []
             | inr vol =>
                 Fixed4 "Volume of the sphere: " vol ::
                 match Evaluator.x_of v with
                 | inl _ => []
                 | inr xv =>
                     match Evaluator.identity_of vol xv with
                     | inl _ => []
                     | inr idv => [Fixed4 "sin(π/3) = " idv]
                     end
                 end
             end
         end
     end)%list /\
  (fst (SpecialAngles.pipeline v s) <> Ok tt ->
   globals (snd (SpecialAngles.pipeline v s)) !! "sin_pi_3"
   = globals s !! "sin_pi_3").
Proof.
  split; [reflexivity|].
  rewrite pipeline_run. unfold main_trace, Evaluator.evaluate.
  cbv beta iota delta [mbind result_bind bind_result Ok Err].
  destruct (Evaluator.diag_length_of v) as [e|d].
  { cbn. rewrite app_nil_r. repeat split.
    intros _. by rewrite lookup_insert_ne. }
  destruct (Evaluator.sphere_radius_of d) as [e|rad].
  { cbn. repeat split. intros _. by rewrite !lookup_insert_ne. }
  destruct (Evaluator.sphere_volume_of rad) as [e|vol].
  { cbn. repeat split; [by rewrite <- app_assoc|].
    intros _. by rewrite !lookup_insert_ne. }
  destruct (Evaluator.x_of v) as [e|xv].
  { cbn. repeat split; [by rewrite <- !app_assoc|].
    intros _. by rewrite !lookup_insert_ne. }
  destruct (Evaluator.identity_of vol xv) as [e|idv].
  { cbn. repeat split; [by rewrite <- !app_assoc|].
    intros _. by rewrite !lookup_insert_ne. }
  cbn. repeat split; [by rewrite <- !app_assoc|].
  intros N. by destruct N.
Qed.

(** X3: an example block (lines 85-95 and 98-108) prints only after all
    five assignments: a run that finishes has appended the header and the
    four lines of its report, a run that raises has printed nothing.
    Both files behave the same. *)
Theorem X3_example_block_prints_all_or_nothing header s v :
  SpecialAnglesNumpy.example_block header (bound "r" v s)
  = SpecialAngles.example_block header (bound "r" v s) /\
  ((exists e : EvaluationResult num,
      Evaluator.evaluate v = Ok e /\
      fst (SpecialAngles.example_block header (bound "r" v s)) = Ok tt /\
      stdout (snd (SpecialAngles.example_block header (bound "r" v s)))
      = (stdout s ++ Plain header v "):" :: report e)%list)
   \/
   (exists ex : exn,
      Evaluator.evaluate v = Err ex /\
      fst (SpecialAngles.example_block header (bound "r" v s)) = Err ex /\
      stdout (snd (SpecialAngles.example_block header (bound "r" v s)))
      = stdout s)).
Proof.
  split; [reflexivity|].
  rewrite example_block_run. unfold example_trace, Evaluator.evaluate.
  cbv beta iota delta [mbind result_bind bind_result Ok Err].
  destruct (Evaluator.diag_length_of v) as [e|d]; [right; by exists e|].
  destruct (Evaluator.sphere_radius_of d) as [e|rad]; [right; by exists e|].
  destruct (Evaluator.sphere_volume_of rad) as [e|vol];
    [right; by exists e|].
  destruct (Evaluator.x_of v) as [e|xv]; [right; by exists e|].
  destruct (Evaluator.identity_of vol xv) as [e|idv]; [right; by exists e|].
  left. eexists. repeat split; reflexivity.
Qed.

Ltac same_globals :=
  unfold printed, bound; cbn [globals stdout fst snd];
  apply map_eq; intros k; rewrite !lookup_insert;
  repeat case_decide; congruence.

(** X5: running lines 24-41 a second time on the same [r], in the state
    the first run left, leaves the globals exactly as the first run left
    them, whether the runs finish or raise. *)
Theorem X5_second_run_keeps_the_globals s v :
  globals (snd (SpecialAngles.pipeline v (snd (SpecialAngles.pipeline v s))))
  = globals (snd (SpecialAngles.pipeline v s)) /\
  globals (snd (SpecialAnglesNumpy.pipeline v
                  (snd (SpecialAnglesNumpy.pipeline v s))))
  = globals (snd (SpecialAnglesNumpy.pipeline v s)).
Proof.
  change (@SpecialAnglesNumpy.pipeline num _)
    with (@SpecialAngles.pipeline num _).
  assert (G : globals (snd (main_trace v (snd (main_trace v s))))
              = globals (snd (main_trace v s))).
  { unfold main_trace.
    destruct (Evaluator.diag_length_of v) as [e|d]; [same_globals|].
    destruct (Evaluator.sphere_radius_of d) as [e|rad]; [same_globals|].
    destruct (Evaluator.sphere_volume_of rad) as [e|vol]; [same_globals|].
    destruct (Evaluator.x_of v) as [e|xv]; [same_globals|].
    destruct (Evaluator.identity_of vol xv) as [e|idv]; same_globals. }
  rewrite !pipeline_run. split; exact G.
Qed.

(** X6: with [r] unbound, lines 27-41 and an example block raise
    [NameError] at their first statement: nothing is bound and nothing
    is printed. *)
Theorem X6_unbound_r s header :
  globals s !! "r" = None ->
  SpecialAngles.main_block s = (Err NameError, s) /\
  SpecialAnglesNumpy.main_block s = (Err NameError, s) /\
  SpecialAngles.example_block header s = (Err NameError, s) /\
  SpecialAnglesNumpy.example_block header s = (Err NameError, s).
Proof.
  intros E.
  assert (D : SpecialAngles.diag_length s = (Err NameError, s)).
  { unfold SpecialAngles.diag_length. rewrite bind_run.
    unfold var. rewrite E. reflexivity. }
  change (SpecialAnglesNumpy.main_block s) with (SpecialAngles.main_block s).
  change (SpecialAnglesNumpy.example_block header s)
    with (SpecialAngles.example_block header s).
  unfold SpecialAngles.main_block, SpecialAngles.example_block.
  rewrite !bind_run, D. repeat split; reflexivity.
Qed.
End Blocks.

Lemma X1_blocks_bind_six_names_witness :
  ("fig" ∉ assigned_names) /\
  globals (snd (SpecialAngles.pipeline 7%R (bound "fig" 0%R fresh))) !! "fig"
  = Some (VNum 0%R).
Proof.
  assert (N : "fig" ∉ assigned_names).
  { unfold assigned_names. rewrite !not_elem_of_cons.
    repeat split; try discriminate. apply not_elem_of_nil. }
  split; [exact N|].
  rewrite (proj1 (X1_blocks_bind_six_names "" _ 7%R "fig" N)).
  apply lookup_insert_eq.
Defined.

Lemma X6_unbound_r_witness :
  globals (@fresh R) !! "r" = None /\
  SpecialAngles.main_block (@fresh R) = (Err NameError, fresh).
Proof.
  assert (E : globals (@fresh R) !! "r" = None) by apply lookup_empty.
  split; [exact E | exact (proj1 (X6_unbound_r fresh "" E))].
Defined.

(** ** The figures *)

Section Figures.
Context {num : Type} `{!Arith num}.
Implicit Types (s : interp num) (name : string).

(** X4: neither figure prints, and neither changes [r], [diag_length],
    [sphere_radius], [sphere_volume] or [sin_pi_3], whether it is drawn
    or raises.  The Plotly figure leaves [x] alone as well; the
    Matplotlib figure, once drawn, leaves [x] bound to an array, no
    longer to the number of line 39. *)
Theorem X4_figures_keep_the_results s name :
  name ∈ reported_names ->
  (stdout (snd (SpecialAngles.visualization s)) = stdout s /\
   globals (snd (SpecialAngles.visualization s)) !! name = globals s !! name /\
   globals (snd (SpecialAngles.visualization s)) !! "x" = globals s !! "x")
  /\
  (stdout (snd (SpecialAnglesNumpy.visualization s)) = stdout s /\
   globals (snd (SpecialAnglesNumpy.visualization s)) !! name
   = globals s !! name /\
   (fst (SpecialAnglesNumpy.visualization s) = Ok tt ->
    globals (snd (SpecialAnglesNumpy.visualization s)) !! "x" = Some VObj /\
    read (snd (SpecialAnglesNumpy.visualization s)) "x" = None)).
Proof.
  intros In.
  assert (N : name ≠ "fig" /\ name ≠ "ax" /\ name ≠ "cube_x" /\
              name ≠ "cube_y" /\ name ≠ "cube_z" /\ name ≠ "diag_x" /\
              name ≠ "diag_y" /\ name ≠ "diag_z" /\ name ≠ "u" /\
              name ≠ "v" /\ name ≠ "x" /\ name ≠ "y" /\ name ≠ "z").
  { unfold reported_names in In.
    rewrite !elem_of_cons, elem_of_nil in In.
    destruct In as [->|[->|[->|[->|[->|[]]]]]]; repeat split; discriminate. }
  destruct N as (N1 & N2 & N3 & N4 & N5 & N6 & N7 & N8 & N9 & N10 & N11
                 & N12 & N13).
  split.
  - unfold SpecialAngles.visualization. exec. unfold var.
    destruct (globals s !! "r") as [[?|]|]; cbn; try done.
    destruct (globals s !! "diag_length") as [[?|]|]; cbn; try done.
    by rewrite !lookup_insert_ne.
  - unfold SpecialAnglesNumpy.visualization, read. exec. unfold var.
    cbn [globals stdout]. rewrite !(lookup_insert_ne _ _ "r") by done.
    destruct (globals s !! "r") as [[?|]|]; exec;
      cbn [globals stdout fst snd];
      try (split; [done|]; split;
           [by rewrite !lookup_insert_ne | intros D; discriminate D]).
    rewrite !(lookup_insert_ne _ _ "diag_length") by done.
    destruct (globals s !! "diag_length") as [[?|]|]; exec;
      cbn [globals stdout fst snd];
      try (split; [done|]; split;
           [by rewrite !lookup_insert_ne | intros D; discriminate D]).
    rewrite !(lookup_insert_ne _ _ "sphere_radius") by done.
    destruct (globals s !! "sphere_radius") as [[?|]|]; exec;
      cbn [globals stdout fst snd];
      try (split; [done|]; split;
           [by rewrite !lookup_insert_ne | intros D; discriminate D]).
    split; [done|]. split; [by rewrite !lookup_insert_ne|].
    intros _. rewrite !(lookup_insert_ne _ _ "x") by done.
    rewrite lookup_insert_eq. done.
Qed.
End Figures.

Lemma X4_figures_keep_the_results_witness :
  ("sin_pi_3" ∈ reported_names) /\
  stdout (snd (SpecialAnglesNumpy.visualization (@fresh R)))
  = stdout (@fresh R).
Proof.
  assert (I : "sin_pi_3" ∈ reported_names).
  { unfold reported_names. rewrite !elem_of_cons. tauto. }
  split; [exact I|].
  exact (proj1 (proj2 (X4_figures_keep_the_results fresh "sin_pi_3" I))).
Defined.

(** ** The test class *)

Section Suite.
Context {num : Type} `{!Arith num} `{!Compare num}.
Hypothesis f_eq_refl : forall a : num, f_eq a a = true.

Lemma assertAlmostEqual_same (a : num) (places : nat) :
  assertAlmostEqual a a places = true.
Proof. unfold assertAlmostEqual. by rewrite f_eq_refl. Qed.

(** Follow a test method through the outcomes of its operations. *)
Ltac test_steps :=
  cbv beta iota zeta delta [mbind result_bind bind_result Ok Err run_test];
  repeat match goal with
         | |- context [match ?t with inl _ => _ | inr _ => _ end] =>
             lazymatch t with
             | context [match _ with inl _ => _ | inr _ => _ end] => fail
             | _ => destruct t as [?|?]; cbv beta iota
             end
         end;
  rewrite ?assertAlmostEqual_same; cbv iota.

Lemma tests_outcomes :
  Forall (fun o => o <> Failed)
    (@TestReformulationOfSpecialAngles.tests num _ _) /\
  (forall e : EvaluationResult num,
     Evaluator.evaluate (of_int 1) = Ok e ->
     Forall (fun o => o = Passed)
       (@TestReformulationOfSpecialAngles.tests num _ _)) /\
  TestReformulationOfSpecialAngles.test_sin_pi_3
  = match Evaluator.evaluate (of_int 1) with
    | inl ex => Errored ex
    | inr _ => Passed
    end.
Proof.
  unfold TestReformulationOfSpecialAngles.tests.
  unfold TestReformulationOfSpecialAngles.test_diagonal_length,
    TestReformulationOfSpecialAngles.test_sin_pi_3,
    TestReformulationOfSpecialAngles.test_sphere_radius,
    TestReformulationOfSpecialAngles.test_sphere_volume,
    Evaluator.evaluate.
  split; [|split].
  - test_steps; repeat constructor; discriminate.
  - intros e. test_steps; intros E; try discriminate E.
    repeat constructor.
  - test_steps; reflexivity.
Qed.

(** X7: when [==] holds between a number and itself, no test method of
    either file can fail: each compares a value with a second evaluation
    of the same expression.  If the evaluator returns at [r = 1] all four
    pass, whatever the values are; [test_sin_pi_3] passes exactly when
    the evaluator returns, and otherwise is an error with the
    evaluator's exception. *)
Theorem X7_tests_cannot_fail :
  @TestReformulationOfSpecialAnglesNumpy.tests num _ _
  = TestReformulationOfSpecialAngles.tests /\
  Forall (fun o => o <> Failed)
    (@TestReformulationOfSpecialAngles.tests num _ _) /\
  (forall e : EvaluationResult num,
     SpecialAngles.evaluate (of_int 1) = Ok e ->
     Forall (fun o => o = Passed)
       (@TestReformulationOfSpecialAngles.tests num _ _)) /\
  TestReformulationOfSpecialAngles.test_sin_pi_3
  = match SpecialAngles.evaluate (of_int 1) with
    | inl ex => Errored ex
    | inr _ => Passed
    end.
Proof.
  destruct tests_outcomes as (A & B & C).
  rewrite evaluate_pure. repeat split; assumption.
Qed.

Lemma suite_after_script (s : interp num) :
  fst (SpecialAngles.script s) = Ok tt ->
  main (@TestReformulationOfSpecialAngles.tests num _ _) = 0%Z.
Proof.
  rewrite plotly_script, script_around_run.
  destruct (main_trace (of_int 1) s) as [[e|[]] s1] eqn:E1;
    [discriminate|]. intros _.
  apply main_trace_ok in E1 as (d & rad & vol & xv & idv & E & _).
  destruct tests_outcomes as (_ & B & _).
  specialize (B _ E). unfold main, wasSuccessful.
  rewrite (proj2 (forallb_forall _ _)); [reflexivity|].
  intros o Ho. rewrite List.Forall_forall in B. by rewrite (B o Ho).
Qed.

(** X8: when [==] holds between a number and itself, either file run as
    a program ends with status 0 exactly when its module body runs to
    the end, and with status 1 when the module body raises; the tests
    print nothing on standard output and cannot change the status. *)
Theorem X8_exit_status_is_that_of_the_module_body (s : interp num) :
  TestReformulationOfSpecialAngles.program s
  = (exit_status (fst (SpecialAngles.script s)),
     snd (SpecialAngles.script s)) /\
  TestReformulationOfSpecialAnglesNumpy.program s
  = (exit_status (fst (SpecialAnglesNumpy.script s)),
     snd (SpecialAnglesNumpy.script s)).
Proof.
  pose proof (suite_after_script s) as S.
  destruct (scripts_same_output s) as [F _].
  unfold TestReformulationOfSpecialAngles.program,
    TestReformulationOfSpecialAnglesNumpy.program.
  change (@TestReformulationOfSpecialAnglesNumpy.tests num _ _)
    with (@TestReformulationOfSpecialAngles.tests num _ _).
  rewrite F in S at 1.
  pose proof (suite_after_script s) as S'.
  destruct (SpecialAngles.script s) as [[e|[]] s1],
           (SpecialAnglesNumpy.script s) as [[e'|[]] s2];
    cbn in *; try discriminate; split; try reflexivity;
    first [by rewrite S | by rewrite S'].
Qed.
End Suite.

Lemma R_eqb_refl (a : R) : R_eqb a a = true.
Proof.
  unfold R_eqb. destruct (Req_dec_T a a); [reflexivity | contradiction].
Qed.

Lemma X7_tests_cannot_fail_witness :
  (forall a : R, f_eq a a = true) /\
  Forall (fun o => o <> Failed)
    (@TestReformulationOfSpecialAngles.tests R _ _).
Proof.
  split; [exact R_eqb_refl|].
  exact (proj1 (proj2 (X7_tests_cannot_fail R_eqb_refl))).
Defined.

Lemma X8_exit_status_is_that_of_the_module_body_witness :
  (forall a : R, f_eq a a = true) /\
  TestReformulationOfSpecialAngles.program (@fresh R)
  = (exit_status (fst (SpecialAngles.script (@fresh R))),
     snd (SpecialAngles.script (@fresh R))).
Proof.
  split; [exact R_eqb_refl|].
  exact (proj1 (X8_exit_status_is_that_of_the_module_body R_eqb_refl fresh)).
Defined.

(** ** [assertAlmostEqual] over the real numbers *)

Section RealAssert.
Open Scope R_scope.

Lemma up_small (y : R) : 0 <= y -> y < 1 -> up y = 1%Z.
Proof. intros H0 H1. symmetry. apply tech_up; lra. Qed.

Lemma round_half_even_zero (y : R) :
  0 <= y -> round_half_even y = 0%Z <-> y <= / 2.
Proof.
  intros H0. unfold round_half_even.
  destruct (archimed y) as [U1 U2].
  split.
  - intros E.
    destruct (Rlt_dec (y - IZR (up y - 1)) (/ 2)) as [L|L].
    + rewrite E in L. lra.
    + assert (P : (0 < up y)%Z) by (apply lt_IZR; lra).
      destruct (Rlt_dec (/ 2) (y - IZR (up y - 1))) as [G|G]; [lia|].
      destruct (Z.even (up y - 1)); [|lia].
      rewrite E in L, G. lra.
  - intros Hy. rewrite (up_small y) by lra. change (1 - 1)%Z with 0%Z.
    replace (y - 0) with y by ring.
    destruct (Rlt_dec y (/ 2)); [reflexivity|].
    destruct (Rlt_dec (/ 2) y); [lra | reflexivity].
Qed.

Lemma R_eqb_true (a b : R) : R_eqb a b = true <-> a = b.
Proof.
  unfold R_eqb. destruct (Req_dec_T a b); split; congruence.
Qed.

(** X9: over the real numbers [assertAlmostEqual (a, b, places = n)]
    returns exactly when [a] and [b] differ by at most half a unit of the
    [n]-th decimal place; with [places = 4], as in the four test methods,
    by at most 0.00005. *)
Theorem X9_assertAlmostEqual_is_half_a_unit (a b : R) (places : nat) :
  (assertAlmostEqual a b places = true <-> approx places a b) /\
  (assertAlmostEqual a b 4 = true <-> Rabs (a - b) <= 0.00005).
Proof.
  assert (Gen : forall n : nat,
             assertAlmostEqual a b n = true <-> approx n a b).
  { intros n.
    assert (P : 0 < 10 ^ n) by (apply pow_lt; lra).
    unfold assertAlmostEqual, approx.
    cbv beta iota delta
      [f_eq f_sub f_abs f_round of_int RealCompare RealArith].
    destruct (R_eqb a b) eqn:E.
    - apply R_eqb_true in E. subst b. split; [intros _|reflexivity].
      replace (a - a) with 0 by ring. rewrite Rabs_R0.
      apply Rlt_le, Rmult_lt_0_compat; [lra|]. by apply Rinv_0_lt_compat.
    - rewrite R_eqb_true. unfold R_round.
      assert (Y : 0 <= Rabs (a - b) * 10 ^ n).
      { apply Rmult_le_pos; [apply Rabs_pos | lra]. }
      pose proof (round_half_even_zero _ Y) as Z0.
      split.
      + intros H.
        assert (I : IZR (round_half_even (Rabs (a - b) * 10 ^ n)) = 0).
        { apply (Rmult_eq_reg_r (/ 10 ^ n)).
          - rewrite Rmult_0_l. exact H.
          - apply Rinv_neq_0_compat. lra. }
        apply eq_IZR in I. apply Z0 in I.
        apply (Rmult_le_reg_r (10 ^ n)); [exact P|].
        rewrite Rmult_assoc, Rinv_l by lra. lra.
      + intros H.
        assert (I : Rabs (a - b) * 10 ^ n <= / 2).
        { apply (Rmult_le_compat_r (10 ^ n)) in H; [|lra].
          rewrite Rmult_assoc, Rinv_l in H by lra. lra. }
        apply Z0 in I. rewrite I. unfold Rdiv. apply Rmult_0_l. }
  split; [apply Gen|].
  rewrite (Gen 4%nat). unfold approx.
  replace (/ 2 * / 10 ^ 4) with 0.00005 by (simpl; lra).
  reflexivity.
Qed.
End RealAssert.

(** ** The numbers, the docstring and the figure data *)

Section RealShape.
Open Scope R_scope.

(** X10: for [r > 0] the values are those the docstring announces
    (line 6): the sphere radius is [(sqrt 3 / 2) * r] and the sphere
    volume is [(sqrt 3 / 2) * PI * r^3]. *)
Theorem X10_docstring_closed_forms (r : R) :
  0 < r ->
  exists e : EvaluationResult R,
    SpecialAngles.evaluate r = Ok e /\
    SpecialAnglesNumpy.evaluate r = Ok e /\
    sphereRadius e = sqrt 3 / 2 * r /\
    sphereVolume e = sqrt 3 / 2 * PI * r ^ 3.
Proof.
  intros H. destruct (both_evaluate_pos r H) as [E1 E2].
  exists (positive_result r). split; [exact E1|]. split; [exact E2|].
  cbn [sphereRadius sphereVolume positive_result].
  split; [field|]. rewrite volume_closed. field.
Qed.

Lemma X10_docstring_closed_forms_witness :
  0 < 2 /\
  exists e : EvaluationResult R,
    SpecialAngles.evaluate 2 = Ok e /\
    SpecialAnglesNumpy.evaluate 2 = Ok e /\
    sphereRadius e = sqrt 3 / 2 * 2 /\
    sphereVolume e = sqrt 3 / 2 * PI * 2 ^ 3.
Proof.
  assert (H : 0 < 2) by lra.
  split; [exact H | exact (X10_docstring_closed_forms 2 H)].
Defined.

(** X11: scaling a positive side length by [k > 0] scales the diagonal
    and the radius by [k] and the volume by [k^3], and leaves the
    identity value unchanged. *)
Theorem X11_scaling (r k : R) :
  0 < r -> 0 < k ->
  exists e e' : EvaluationResult R,
    SpecialAngles.evaluate r = Ok e /\
    SpecialAngles.evaluate (k * r) = Ok e' /\
    diagonalLength e' = k * diagonalLength e /\
    sphereRadius e' = k * sphereRadius e /\
    sphereVolume e' = k ^ 3 * sphereVolume e /\
    identityValue e' = identityValue e.
Proof.
  intros Hr Hk.
  assert (Hkr : 0 < k * r) by (apply Rmult_lt_0_compat; assumption).
  destruct (both_evaluate_pos r Hr) as [E1 _].
  destruct (both_evaluate_pos (k * r) Hkr) as [E2 _].
  exists (positive_result r), (positive_result (k * r)).
  split; [exact E1|]. split; [exact E2|].
  cbn [diagonalLength sphereRadius sphereVolume identityValue
       positive_result].
  repeat split; field.
Qed.

Lemma X11_scaling_witness :
  0 < 1 /\ 0 < 3 /\
  exists e e' : EvaluationResult R,
    SpecialAngles.evaluate 1 = Ok e /\
    SpecialAngles.evaluate (3 * 1) = Ok e' /\
    diagonalLength e' = 3 * diagonalLength e /\
    sphereRadius e' = 3 * sphereRadius e /\
    sphereVolume e' = 3 ^ 3 * sphereVolume e /\
    identityValue e' = identityValue e.
Proof.
  assert (H1 : 0 < 1) by lra. assert (H3 : 0 < 3) by lra.
  split; [exact H1|]. split; [exact H3|].
  exact (X11_scaling 1 3 H1 H3).
Defined.

(** X12: for [r <> 0] the diagonal, the radius and the volume depend on
    [r] only through its absolute value (the diagonal is positive), and
    the identity value changes sign with [r]. *)
Theorem X12_sign_of_the_side (r : R) :
  r <> 0 ->
  exists e e' : EvaluationResult R,
    SpecialAngles.evaluate r = Ok e /\
    SpecialAngles.evaluate (- r) = Ok e' /\
    diagonalLength e' = diagonalLength e /\
    sphereRadius e' = sphereRadius e /\
    sphereVolume e' = sphereVolume e /\
    identityValue e' = - identityValue e /\
    0 < diagonalLength e.
Proof.
  intros H. pose proof sqrt3_bounds as S.
  destruct (Rtotal_order r 0) as [L|[Z|G]]; [|contradiction|].
  - assert (G : 0 < - r) by lra.
    destruct (both_evaluate_neg r L) as [E1 _].
    destruct (both_evaluate_pos (- r) G) as [E2 _].
    eexists _, _. split; [exact E1|]. split; [exact E2|].
    cbn [diagonalLength sphereRadius sphereVolume identityValue
         positive_result].
    repeat split; try field. nra.
  - assert (L : - r < 0) by lra.
    destruct (both_evaluate_pos r G) as [E1 _].
    destruct (both_evaluate_neg (- r) L) as [E2 _].
    eexists _, _. split; [exact E1|]. split; [exact E2|].
    cbn [diagonalLength sphereRadius sphereVolume identityValue
         positive_result].
    repeat split; try field. nra.
Qed.

Lemma X12_sign_of_the_side_witness :
  2 <> 0 /\
  exists e e' : EvaluationResult R,
    SpecialAngles.evaluate 2 = Ok e /\
    SpecialAngles.evaluate (- 2) = Ok e' /\
    diagonalLength e' = diagonalLength e /\
    sphereRadius e' = sphereRadius e /\
    sphereVolume e' = sphereVolume e /\
    identityValue e' = - identityValue e /\
    0 < diagonalLength e.
Proof.
  assert (H : 2 <> 0) by lra.
  split; [exact H | exact (X12_sign_of_the_side 2 H)].
Defined.

Lemma distance_half (a b c h : R) :
  0 <= h -> a ^ 2 = h ^ 2 -> b ^ 2 = h ^ 2 -> c ^ 2 = h ^ 2 ->
  sqrt (a ^ 2 + b ^ 2 + c ^ 2) = h * sqrt 3.
Proof.
  intros H A B C. rewrite A, B, C.
  replace (h ^ 2 + h ^ 2 + h ^ 2) with (Rsqr h * 3) by (unfold Rsqr; ring).
  rewrite sqrt_mult by (try apply Rle_0_sqr; lra).
  rewrite sqrt_Rsqr by exact H. reflexivity.
Qed.

(** X13: for [r > 0] the three coordinate lists of the cube describe
    eight distinct points, each at distance [sphere_radius] from the
    centre [(r/2, r/2, r/2)]; among them are [(0, 0, 0)] and
    [(r, r, r)], whose distance is [diag_length]. *)
Theorem X13_cube_vertices_lie_on_the_sphere (r : R) :
  0 < r ->
  exists e : EvaluationResult R,
    SpecialAngles.evaluate r = Ok e /\
    length (Figure.cube r) = 8%nat /\
    NoDup (Figure.cube r) /\
    Forall (fun p => distance p (r / 2, r / 2, r / 2) = sphereRadius e)
      (Figure.cube r) /\
    (0, 0, 0) ∈ Figure.cube r /\
    (r, r, r) ∈ Figure.cube r /\
    distance (0, 0, 0) (r, r, r) = diagonalLength e.
Proof.
  intros H. destruct (both_evaluate_pos r H) as [E1 _].
  exists (positive_result r). split; [exact E1|].
  cbn [diagonalLength sphereRadius positive_result].
  unfold Figure.cube, Figure.points, Figure.cube_x, Figure.cube_y,
    Figure.cube_z.
  change (of_int 0) with 0. cbn [zip zip_with length].
  split; [reflexivity|]. split.
  { repeat (apply NoDup_cons; split;
            [rewrite ?elem_of_cons, elem_of_nil;
             intros D; repeat (destruct D as [D|D]; [injection D; lra|]);
             exact D |]).
    apply NoDup_nil_2. }
  split.
  { repeat apply List.Forall_cons; try apply List.Forall_nil;
      unfold distance;
      (replace (r * sqrt 3 / 2) with (r / 2 * sqrt 3) by field);
      apply distance_half; try lra; field. }
  split; [rewrite !elem_of_cons; tauto|].
  split; [rewrite !elem_of_cons; tauto|].
  unfold distance.
  replace ((0 - r) ^ 2 + (0 - r) ^ 2 + (0 - r) ^ 2) with (Rsqr r * 3)
    by (unfold Rsqr; ring).
  rewrite sqrt_mult by (try apply Rle_0_sqr; lra).
  rewrite sqrt_Rsqr by lra. reflexivity.
Qed.

Lemma X13_cube_vertices_lie_on_the_sphere_witness :
  0 < 1 /\
  exists e : EvaluationResult R,
    SpecialAngles.evaluate 1 = Ok e /\
    length (Figure.cube 1) = 8%nat /\
    NoDup (Figure.cube 1) /\
    Forall (fun p => distance p (1 / 2, 1 / 2, 1 / 2) = sphereRadius e)
      (Figure.cube 1) /\
    (0, 0, 0) ∈ Figure.cube 1 /\
    (1, 1, 1) ∈ Figure.cube 1 /\
    distance (0, 0, 0) (1, 1, 1) = diagonalLength e.
Proof.
  assert (H : 0 < 1) by lra.
  split; [exact H | exact (X13_cube_vertices_lie_on_the_sphere 1 H)].
Defined.

(** X14: for [r > 0] the segment plotted under the label [Diagonal] runs
    from the origin to [(diag_length/2, diag_length/2, 0)]; its length is
    [sqrt 2 * sphere_radius], more than the sphere radius and less than
    the diagonal of the cube. *)
Theorem X14_plotted_diagonal (r : R) :
  0 < r ->
  exists e : EvaluationResult R,
    SpecialAngles.evaluate r = Ok e /\
    Figure.diagonal (diagonalLength e)
    = Ok [(0, 0, 0); (sphereRadius e, sphereRadius e, 0)] /\
    distance (0, 0, 0) (sphereRadius e, sphereRadius e, 0)
    = sqrt 2 * sphereRadius e /\
    distance (0, 0, 0) (sphereRadius e, sphereRadius e, 0)
    < diagonalLength e /\
    sphereRadius e
    < distance (0, 0, 0) (sphereRadius e, sphereRadius e, 0).
Proof.
  intros H. destruct (both_evaluate_pos r H) as [E1 _].
  exists (positive_result r). split; [exact E1|].
  cbn [diagonalLength sphereRadius positive_result].
  pose proof sqrt3_bounds as S3.
  assert (D : distance (0, 0, 0) (r * sqrt 3 / 2, r * sqrt 3 / 2, 0)
              = sqrt 2 * (r * sqrt 3 / 2)).
  { unfold distance.
    replace ((0 - r * sqrt 3 / 2) ^ 2 + (0 - r * sqrt 3 / 2) ^ 2
             + (0 - 0) ^ 2)
      with (2 * Rsqr (r * sqrt 3 / 2)) by (unfold Rsqr; ring).
    rewrite sqrt_mult by (try apply Rle_0_sqr; lra).
    rewrite sqrt_Rsqr by nra. reflexivity. }
  split.
  { unfold Figure.diagonal, Figure.points.
    cbv beta iota delta [mbind result_bind bind_result of_int f_truediv
                         RealArith].
    rewrite R_truediv_nonzero by lra. reflexivity. }
  split; [exact D|]. rewrite D.
  assert (S2 : 1.4142 < sqrt 2 < 1.4143).
  { pose proof sqrt2_sqr. pose proof (sqrt_pos 2). split; nra. }
  assert (T : 0 < r * sqrt 3 / 2) by nra.
  set (t := r * sqrt 3 / 2) in *.
  replace (r * sqrt 3) with (2 * t) by (unfold t; field).
  split.
  - apply Rmult_lt_compat_r; lra.
  - rewrite <- (Rmult_1_l t) at 1. apply Rmult_lt_compat_r; lra.
Qed.

Lemma X14_plotted_diagonal_witness :
  0 < 1 /\
  exists e : EvaluationResult R,
    SpecialAngles.evaluate 1 = Ok e /\
    Figure.diagonal (diagonalLength e)
    = Ok [(0, 0, 0); (sphereRadius e, sphereRadius e, 0)] /\
    distance (0, 0, 0) (sphereRadius e, sphereRadius e, 0)
    = sqrt 2 * sphereRadius e /\
    distance (0, 0, 0) (sphereRadius e, sphereRadius e, 0)
    < diagonalLength e /\
    sphereRadius e
    < distance (0, 0, 0) (sphereRadius e, sphereRadius e, 0).
Proof.
  assert (H : 0 < 1) by lra.
  split; [exact H | exact (X14_plotted_diagonal 1 H)].
Defined.
End RealShape.
